(** * Authentication controller: account lockout and token flows

    Shallow embedding of [src/controllers/auth.controller.js]: the six
    Express handlers [signUp], [signIn], [signOut], [forgotPassword],
    [resetPassword] and [verifyEmail], written over an explicit world
    (user collection, login-log collection, mail outbox) in a small
    state-and-exception monad that mirrors [async]/[await] with
    [try]/[catch].

    Modelling choices, all visible in the definitions below:
    - request body fields are JSON strings or absent ([option string],
      [None] standing for [undefined]);
    - the collections are in-memory lists in insertion order and their
      operations do not fail; [findOne] returns the first match;
    - bcryptjs and jsonwebtoken are an interface ([Libs]); what the
      handler cannot control for one request (clock, generated salt,
      outcome of the mail transport) is the [Ambient] of the call. *)

From Stdlib Require Import ZArith NArith List String Ascii Bool Lia DecimalString.
Import ListNotations.

Local Open Scope string_scope.
Local Open Scope Z_scope.

(** ** JavaScript values and operators used by the controller *)

(** [!v] is [negb (truthy v)]: [undefined] and the empty string are falsy. *)
Definition truthy (v : option string) : bool :=
  match v with
  | Some s => negb (s =? "")%string
  | None => false
  end.

(** [v || null] on a string-or-undefined value. *)
Definition or_null (v : option string) : option string :=
  if truthy v then v else None.

(** [n || 0] on a number. *)
Definition or_zero (n : Z) : Z := if n =? 0 then 0 else n.

(** [a !== b] on string-or-undefined values. *)
Definition strict_neq (a b : option string) : bool :=
  match a, b with
  | Some x, Some y => negb (x =? y)%string
  | None, None => false
  | _, _ => true
  end.

(** A value interpolated in a template literal. *)
Definition interp (v : option string) : string :=
  match v with
  | Some s => s
  | None => "undefined"
  end.

(** A number interpolated in a template literal. *)
Definition string_of_Z (z : Z) : string := NilZero.string_of_int (Z.to_int z).

Definition nl : string := String (ascii_of_nat 10) EmptyString.

(** [typeof x !== 'undefined' ? x : null] for an identifier [x] resolved in
    the bindings [scope]: an unbound identifier has type ['undefined']. *)
Fixpoint lookup_ident (x : string) (scope : list (string * option string))
  : option (option string) :=
  match scope with
  | [] => None
  | (y, v) :: rest => if (x =? y)%string then Some v else lookup_ident x rest
  end.

Definition defined_or_null (x : string) (scope : list (string * option string))
  : option string :=
  match lookup_ident x scope with
  | Some (Some v) => Some v
  | _ => None
  end.

(** ** Data model *)

Module JsError.
Record t := mk { message : string; statusCode : option Z }.
Definition set_message (m : string) (e : t) : t := mk m (statusCode e).
Definition set_statusCode (c : Z) (e : t) : t := mk (message e) (Some c).
End JsError.

(** [const error = new Error(msg); error.statusCode = code]. *)
Definition new_Error (msg : string) (code : Z) : JsError.t :=
  JsError.set_statusCode code (JsError.mk msg None).

Module User.
Record t := mk {
  _id : N;
  name : option string;
  email : option string;
  password : string;
  isVerified : bool;
  isLocked : bool;
  loginAttempts : Z
}.
Definition set_password (p : string) (u : t) : t :=
  mk (_id u) (name u) (email u) p (isVerified u) (isLocked u) (loginAttempts u).
Definition set_isVerified (b : bool) (u : t) : t :=
  mk (_id u) (name u) (email u) (password u) b (isLocked u) (loginAttempts u).
Definition set_isLocked (b : bool) (u : t) : t :=
  mk (_id u) (name u) (email u) (password u) (isVerified u) b (loginAttempts u).
Definition set_loginAttempts (n : Z) (u : t) : t :=
  mk (_id u) (name u) (email u) (password u) (isVerified u) (isLocked u) n.
End User.

Module LoginLog.
Record t := mk {
  userId : option N;
  name : option string;
  email : option string;
  status : string;
  ipAddress : option string;
  userAgent : option string;
  reason : option string
}.
End LoginLog.

Module Mail.
Record t := mk {
  from : string;
  to : option string;
  subject : string;
  text : string
}.
End Mail.

Module World.
Record t := mk {
  users : list User.t;
  logs : list LoginLog.t;
  outbox : list Mail.t;
  next_id : N
}.
Definition empty : t := mk [] [] [] 0%N.
Definition set_users (us : list User.t) (w : t) : t :=
  mk us (logs w) (outbox w) (next_id w).
End World.

(** ** Requests, responses and the two ways a handler ends *)

Module Body.
Record t := mk {
  name : option string;
  email : option string;
  password : option string;
  confirmPassword : option string
}.
End Body.

Module Req.
Record t := mk {
  body : Body.t;
  token : string;              (* req.params.token *)
  ip : option string;          (* req.ip *)
  userAgent : option string    (* req.get('User-Agent') *)
}.
End Req.

Inductive Data :=
| NoData
| VerificationData (verificationToken : string) (user : User.t)
| SessionData (token : string) (user : User.t)
| ResetData (resetToken resetURL : string).

Module Response.
Record t := mk {
  status : Z;
  success : bool;
  message : string;
  data : Data;
  clearedCookies : list string
}.
End Response.

(** [res.status(s).json({success, message, data})]. *)
Definition json (s : Z) (ok : bool) (msg : string) (d : Data) : Response.t :=
  Response.mk s ok msg d [].

(** A handler either answers on [res] or hands an error to [next]. *)
Inductive Outcome :=
| Responded (r : Response.t)
| Forwarded (e : JsError.t).

(** What one call cannot control: the clock, the salt [bcrypt.genSalt]
    draws, and whether the mail transport rejects. *)
Module Ambient.
Record t := mk {
  now : Z;
  salt : string;
  mailFailure : option JsError.t
}.
End Ambient.

(** ** The async monad: world passing with exceptions *)

Inductive Completion (A : Type) :=
| Normal (a : A)
| Thrown (e : JsError.t).
Arguments Normal {A} a.
Arguments Thrown {A} e.

Definition Async (A : Type) : Type := World.t -> Completion A * World.t.

Definition ret {A} (a : A) : Async A := fun w => (Normal a, w).

Definition throw {A} (e : JsError.t) : Async A := fun w => (Thrown e, w).

Definition bind {A B} (m : Async A) (k : A -> Async B) : Async B :=
  fun w =>
    match m w with
    | (Normal a, w') => k a w'
    | (Thrown e, w') => (Thrown e, w')
    end.

Notation "x <- m ;; k" := (bind m (fun x => k))
  (at level 61, m at next level, right associativity).
Notation "m ;;; k" := (bind m (fun _ => k))
  (at level 61, right associativity).

(** [try { body } catch (error) { next(error) }] around a whole handler. *)
Definition handler (body : Async Outcome) : World.t -> Outcome * World.t :=
  fun w =>
    match body w with
    | (Normal o, w') => (o, w')
    | (Thrown e, w') => (Forwarded e, w')
    end.

(** ** Collections *)

Definition opt_string_eqb (a b : option string) : bool := negb (strict_neq a b).

(** [User.findOne({email})]: first document with that email. *)
Definition find_by_email (e : option string) (us : list User.t) : option User.t :=
  find (fun u => opt_string_eqb (User.email u) e) us.

(** [User.findById(id)]. *)
Definition find_by_id (i : N) (us : list User.t) : option User.t :=
  find (fun u => (User._id u =? i)%N) us.

(** [doc.save()]: the stored document with the same [_id] takes the
    in-memory values. *)
Definition replace_doc (u : User.t) (us : list User.t) : list User.t :=
  map (fun d => if (User._id d =? User._id u)%N then u else d) us.

Definition User_findOne (e : option string) : Async (option User.t) :=
  fun w => (Normal (find_by_email e (World.users w)), w).

Definition User_findById (i : N) : Async (option User.t) :=
  fun w => (Normal (find_by_id i (World.users w)), w).

Definition save (u : User.t) : Async unit :=
  fun w => (Normal tt, World.set_users (replace_doc u (World.users w)) w).

(** Modelled from the spec: the schema of [models/user.model.js] is not in the
    sources; section 3 gives the defaults of a new Account, [isLocked] false
    and [loginAttempts] 0, and section 6 gives [create] no failure. The store
    assigns the next free identifier. *)
Definition User_create (name email : option string) (password : string)
    (isVerified : bool) : Async User.t :=
  fun w =>
    let u := User.mk (World.next_id w) name email password isVerified false 0 in
    (Normal u,
     World.mk (World.users w ++ [u]) (World.logs w) (World.outbox w)
              (N.succ (World.next_id w))).

(** [LoginLogs.create(entry)]. *)
Definition LoginLogs_create (entry : LoginLog.t) : Async unit :=
  fun w =>
    (Normal tt,
     World.mk (World.users w) (World.logs w ++ [entry]) (World.outbox w)
              (World.next_id w)).

(** [transporter.sendMail(mailOptions)]: delivered, or rejected with the
    transport's error. *)
Definition sendMail (amb : Ambient.t) (m : Mail.t) : Async unit :=
  fun w =>
    match Ambient.mailFailure amb with
    | Some e => (Thrown e, w)
    | None =>
        (Normal tt,
         World.mk (World.users w) (World.logs w) (World.outbox w ++ [m])
                  (World.next_id w))
    end.

(** ** Library interface: bcryptjs, jsonwebtoken and the environment *)

Class Libs := {
  bcrypt_hash : string -> string -> string;        (* password, salt *)
  bcrypt_compare : string -> string -> bool;       (* password, hash *)
  jwt_sign : N -> string -> string -> Z -> string; (* userId, secret, expiresIn, clock *)
  jwt_verify : string -> string -> Z -> JsError.t + N; (* token, secret, clock *)
  JWT_SECRET : string;
  JWT_EXPIRES_IN : string
}.

(** bcryptjs rejects a non-string argument. *)
Definition illegal_arguments : JsError.t :=
  JsError.mk "Illegal arguments: undefined, string" None.

(** ** The handlers *)

Section Controller.
Context `{L : Libs}.

(** [await bcrypt.hash(password, salt)]. *)
Definition hash_password (password : option string) (salt : string)
  : Async string :=
  match password with
  | Some p => ret (bcrypt_hash p salt)
  | None => throw illegal_arguments
  end.

(** [await bcrypt.compare(password, user.password)]. *)
Definition compare_password (password : option string) (hashed : string)
  : Async bool :=
  match password with
  | Some p => ret (bcrypt_compare p hashed)
  | None => throw illegal_arguments
  end.

Definition verification_mail (name email : option string) (url : string)
  : Mail.t :=
  Mail.mk "noreply@noreply.com" email "Email Verification"
    ("Hello " ++ interp name ++ "," ++ nl ++ nl
     ++ "Please verify your email by clicking the link:" ++ nl
     ++ url ++ nl ++ nl
     ++ "This link will expire in 24 hours." ++ nl).

Definition signUp (amb : Ambient.t) (req : Req.t)
  : World.t -> Outcome * World.t :=
  handler (
    let name := Body.name (Req.body req) in
    let email := Body.email (Req.body req) in
    let password := Body.password (Req.body req) in
    let confirmPassword := Body.confirmPassword (Req.body req) in
    existingUser <- User_findOne email ;;
    if negb (truthy confirmPassword) then
      ret (Responded (json 400 false "Confirm password is empty" NoData))
    else
      match existingUser with
      | Some _ => ret (Forwarded (new_Error "User already exists" 409))
      | None =>
          if strict_neq password confirmPassword then
            ret (Forwarded (new_Error "Passwords do not match" 400))
          else
            let salt := Ambient.salt amb in
            hashedPassword <- hash_password password salt ;;
            newUser <- User_create name email hashedPassword false ;;
            let verificationToken :=
              jwt_sign (User._id newUser) JWT_SECRET JWT_EXPIRES_IN
                       (Ambient.now amb) in
            let verificationURL :=
              "http://yourfrontend.com/verify-email/" ++ verificationToken in
            sendMail amb (verification_mail name email verificationURL) ;;;
            ret (Responded (json 201 true "User created successfully"
                              (VerificationData verificationToken newUser)))
      end).

(** The string-valued bindings visible from [createLoginLog]; the others
    ([req], [res], [next], [user], [createLoginLog] and the imports) hold
    objects and functions. *)
Definition signIn_scope (email password : option string) (status : string)
    (reason : option string) : list (string * option string) :=
  [("status", Some status); ("reason", reason);
   ("email", email); ("password", password)].

Definition createLoginLog (user : option User.t)
    (email password : option string) (status : string)
    (reason : option string) : Async unit :=
  let scope := signIn_scope email password status reason in
  LoginLogs_create
    (LoginLog.mk
       (option_map User._id user)
       (or_null (match user with Some u => User.name u | None => None end))
       email
       status
       (defined_or_null "ipAddress" scope)
       (defined_or_null "userAgent" scope)
       reason).

Definition signIn (amb : Ambient.t) (req : Req.t)
  : World.t -> Outcome * World.t :=
  handler (
    let email := Body.email (Req.body req) in
    let password := Body.password (Req.body req) in
    found <- User_findOne email ;;
    match found with
    | None => ret (Forwarded (new_Error "User not found" 404))
    | Some user =>
        if negb (User.isVerified user) then
          ret (Forwarded
                 (new_Error "Please verify your email before signing in" 403))
        else if User.isLocked user then
          ret (Forwarded
                 (new_Error "Account is locked. Please contact administrator"
                            403))
        else
          isPasswordValid <- compare_password password (User.password user) ;;
          if negb isPasswordValid then
            let user :=
              User.set_loginAttempts (or_zero (User.loginAttempts user) + 1)
                                     user in
            if 5 <=? User.loginAttempts user then
              let user := User.set_isLocked true user in
              save user ;;;
              ret (Forwarded
                     (new_Error
                        "Account locked due to multiple failed attempts. Please contact administrator"
                        403))
            else
              save user ;;;
              createLoginLog (Some user) email password "failed"
                             (Some "Invalid password") ;;;
              ret (Forwarded
                     (new_Error
                        ("Invalid password. "
                         ++ string_of_Z (5 - User.loginAttempts user)
                         ++ " attempts remaining")
                        401))
          else
            user <- (if 0 <? User.loginAttempts user then
                       let user := User.set_loginAttempts 0 user in
                       save user ;;; ret user
                     else ret user) ;;
            let token :=
              jwt_sign (User._id user) JWT_SECRET JWT_EXPIRES_IN
                       (Ambient.now amb) in
            createLoginLog (Some user) email password "success" None ;;;
            ret (Responded (json 200 true "User signed in successfully"
                              (SessionData token user)))
    end).

Definition signOut (amb : Ambient.t) (req : Req.t)
  : World.t -> Outcome * World.t :=
  handler (
    ret (Responded
           (Response.mk 200 true "User signed out successfully" NoData
                        ["token"]))).

Definition reset_mail (name email : option string) (url : string) : Mail.t :=
  Mail.mk "noreply@noreply.com" email "Password Reset Request"
    ("Hello " ++ interp name ++ "," ++ nl ++ nl
     ++ "You have requested to reset your password." ++ nl ++ nl
     ++ "Please click on the following link to reset your password:" ++ nl
     ++ url ++ nl ++ nl
     ++ "This link will expire in 1 hour." ++ nl ++ nl
     ++ "If you did not request this, please ignore this email." ++ nl).

Definition forgotPassword (amb : Ambient.t) (req : Req.t)
  : World.t -> Outcome * World.t :=
  handler (
    let email := Body.email (Req.body req) in
    if negb (truthy email) then
      ret (Forwarded (new_Error "Email is required" 401))
    else
      found <- User_findOne email ;;
      match found with
      | None => ret (Forwarded (new_Error "User not found" 404))
      | Some user =>
          let resetToken :=
            jwt_sign (User._id user) JWT_SECRET "1h" (Ambient.now amb) in
          let resetURL :=
            "http://yourfrontend.com/reset-password/" ++ resetToken in
          sendMail amb
            (reset_mail (User.name user) (User.email user) resetURL) ;;;
          ret (Responded (json 200 true "Password reset link sent to email"
                            (ResetData resetToken resetURL)))
      end).

Definition resetPassword (amb : Ambient.t) (req : Req.t)
  : World.t -> Outcome * World.t :=
  handler (
    let token := Req.token req in
    let password := Body.password (Req.body req) in
    if negb (truthy (Some token)) || negb (truthy password) then
      ret (Forwarded (new_Error "Token and password are required" 400))
    else
      match jwt_verify token JWT_SECRET (Ambient.now amb) with
      | inl error =>
          ret (Forwarded
                 (JsError.set_statusCode 401
                    (JsError.set_message "Invalid or expired token" error)))
      | inr userId =>
          found <- User_findById userId ;;
          match found with
          | None => ret (Forwarded (new_Error "User not found" 404))
          | Some user =>
              let salt := Ambient.salt amb in
              hashedPassword <- hash_password password salt ;;
              let user := User.set_password hashedPassword user in
              let user := User.set_loginAttempts 0 user in
              let user := User.set_isLocked false user in
              save user ;;;
              ret (Responded (json 200 true "Password reset successful"
                                NoData))
          end
      end).

Definition verifyEmail (amb : Ambient.t) (req : Req.t)
  : World.t -> Outcome * World.t :=
  handler (
    let token := Req.token req in
    match jwt_verify token JWT_SECRET (Ambient.now amb) with
    | inl error =>
        ret (Forwarded
               (JsError.set_statusCode 401
                  (JsError.set_message
                     "Invalid or expired verification token" error)))
    | inr userId =>
        found <- User_findById userId ;;
        match found with
        | None => ret (Forwarded (new_Error "User not found" 404))
        | Some user =>
            if User.isVerified user then
              ret (Responded (json 400 false "Email already verified" NoData))
            else
              let user := User.set_isVerified true user in
              save user ;;;
              ret (Responded (json 200 true "Email verified successfully"
                                NoData))
        end
    end).

(** The routes of the controller and the dispatch of one request. *)
Inductive Endpoint :=
| SignUp | SignIn | SignOut | ForgotPassword | ResetPassword | VerifyEmail.

Definition dispatch (ep : Endpoint)
  : Ambient.t -> Req.t -> World.t -> Outcome * World.t :=
  match ep with
  | SignUp => signUp
  | SignIn => signIn
  | SignOut => signOut
  | ForgotPassword => forgotPassword
  | ResetPassword => resetPassword
  | VerifyEmail => verifyEmail
  end.

End Controller.

(** ** Serving requests, and the worlds the claims speak of *)

Section Serving.
Context `{L : Libs}.

Definition Call : Type := Endpoint * Ambient.t * Req.t.

(** Requests served one after the other: each outcome with the world it
    leaves behind. *)
Fixpoint serve (calls : list Call) (w : World.t)
  : list (Outcome * World.t) :=
  match calls with
  | [] => []
  | (ep, amb, req) :: rest =>
      let r := dispatch ep amb req w in
      r :: serve rest (snd r)
  end.

(** The world after the last of [calls]. *)
Fixpoint final (calls : list Call) (w : World.t) : World.t :=
  match calls with
  | [] => w
  | (ep, amb, req) :: rest => final rest (snd (dispatch ep amb req w))
  end.

(** A locked account has used up its five attempts. *)
Definition locked_after_five (u : User.t) : Prop :=
  User.isLocked u = true -> 5 <= User.loginAttempts u.

Definition lock_invariant (w : World.t) : Prop :=
  Forall locked_after_five (World.users w).

(** A sign-in request for [e] whose password is a string that does not
    match the hash stored for [u]. *)
Definition wrong_password (e : option string) (u : User.t) (req : Req.t)
  : Prop :=
  Body.email (Req.body req) = e /\
  exists p, Body.password (Req.body req) = Some p /\
            bcrypt_compare p (User.password u) = false.

(** The log entry of a failed attempt on [u] under email [e]. *)
Definition failed_entry (e : option string) (u : User.t) : LoginLog.t :=
  LoginLog.mk (Some (User._id u)) (or_null (User.name u)) e "failed"
              None None (Some "Invalid password").

Definition success_entry (e : option string) (u : User.t) : LoginLog.t :=
  LoginLog.mk (Some (User._id u)) (or_null (User.name u)) e "success"
              None None None.

(** [w] after [k] sub-threshold failures on [u]: the counter is stored and
    [k] failed entries are appended. *)
Definition after_failures (w : World.t) (e : option string) (u : User.t)
    (k : nat) : World.t :=
  World.mk
    (replace_doc (User.set_loginAttempts (Z.of_nat k) u) (World.users w))
    (World.logs w ++ repeat (failed_entry e u) k)
    (World.outbox w) (World.next_id w).

(** [w] after the locking attempt that follows [k] logged failures. *)
Definition after_lock (w : World.t) (e : option string) (u : User.t)
    (k : nat) : World.t :=
  World.mk
    (replace_doc
       (User.set_isLocked true
          (User.set_loginAttempts (Z.of_nat (S k)) u))
       (World.users w))
    (World.logs w ++ repeat (failed_entry e u) k)
    (World.outbox w) (World.next_id w).

(** Sign-in calls only. *)
Definition sign_in_calls (cs : list (Ambient.t * Req.t)) : list Call :=
  map (fun c => (SignIn, fst c, snd c)) cs.

Definition invalid_password_error (remaining : string) : JsError.t :=
  JsError.mk ("Invalid password. " ++ remaining ++ " attempts remaining")
             (Some 401).

Definition locked_error : JsError.t :=
  JsError.mk
    "Account locked due to multiple failed attempts. Please contact administrator"
    (Some 403).

End Serving.

(** ** A test double for the libraries, and sample requests

    [plain_libs] keeps passwords in clear and writes a token as the decimal
    digits of its subject; tokens of this double never expire. It is used to
    run the handlers on concrete inputs. *)

Definition plain_verify (token secret : string) (clock : Z) : JsError.t + N :=
  match NilZero.uint_of_string token with
  | Some d => inr (N.of_uint d)
  | None => inl (JsError.mk "jwt malformed" None)
  end.

Definition plain_libs : Libs := {|
  bcrypt_hash := fun p _ => p;
  bcrypt_compare := fun p h => (p =? h)%string;
  jwt_sign := fun uid _ _ _ => NilZero.string_of_uint (N.to_uint uid);
  jwt_verify := plain_verify;
  JWT_SECRET := "secret";
  JWT_EXPIRES_IN := "1d"
|}.

Definition quiet : Ambient.t := Ambient.mk 0 "salt" None.

Definition smtp_down : JsError.t := JsError.mk "connect ECONNREFUSED" None.

Definition mail_down : Ambient.t := Ambient.mk 0 "salt" (Some smtp_down).

Definition request (name email password confirmPassword : option string)
    (token : string) : Req.t :=
  Req.mk (Body.mk name email password confirmPassword) token
         (Some "203.0.113.7") (Some "curl/8.0").

Definition alice : User.t :=
  User.mk 0 (Some "Alice") (Some "a@x.com") "p1" true false 0.

Definition alice_world : World.t := World.mk [alice] [] [] 1.

Definition alice_login (password : string) : Req.t :=
  request None (Some "a@x.com") (Some password) None "".

Definition five_bad_logins : list (Ambient.t * Req.t) :=
  [(quiet, alice_login "x1"); (quiet, alice_login "x2");
   (quiet, alice_login "x3"); (quiet, alice_login "x4");
   (quiet, alice_login "x5")].

(** Alice signs up, verifies her address, then fails to sign in five times. *)
Definition alice_story : list Call :=
  [(SignUp, quiet,
    request (Some "Alice") (Some "a@x.com") (Some "p1") (Some "p1") "");
   (VerifyEmail, quiet, request None None None None "0")]
  ++ sign_in_calls five_bad_logins.

Definition alice_locked : User.t :=
  User.mk 0 (Some "Alice") (Some "a@x.com") "p1" true true 5.

(** Alice's world after two failed sign-ins. *)
Definition alice_two_failures : World.t :=
  after_failures alice_world (Some "a@x.com") alice 2.

(** A request that carries only the token of the route. *)
Definition token_request (token : string) : Req.t :=
  request None None None None token.

(** A reset of Alice's password with the token of her account. *)
Definition alice_reset (password : string) : Req.t :=
  request None None (Some password) None "0".

Definition alice_unverified : User.t :=
  User.mk 0 (Some "Alice") (Some "a@x.com") "p1" false false 0.

Definition unverified_world : World.t := World.mk [alice_unverified] [] [] 1.

(** A second sign-up under Alice's address whose passwords differ. *)
Definition eve_signup : Req.t :=
  request (Some "Eve") (Some "a@x.com") (Some "p1") (Some "p2") "".

(** A sign-up without [confirmPassword]. *)
Definition bob_signup_unconfirmed : Req.t :=
  request (Some "Bob") (Some "b@x.com") (Some "p") None "".

Definition bob_signup : Req.t :=
  request (Some "Bob") (Some "b@x.com") (Some "p") (Some "p") "".

Definition bob : User.t :=
  User.mk 1 (Some "Bob") (Some "b@x.com") "p" false false 0.

(** A forgot-password request whose body has no email. *)
Definition forgot_nothing : Req.t := request None None None None "".

(** bcrypt's round trip: a password matches every hash made from it. *)
Definition bcrypt_roundtrip `{L : Libs} : Prop :=
  forall p salt, bcrypt_compare p (bcrypt_hash p salt) = true.

(** ** Stores, counters and the ways one account changes *)

(** What names an account: its identifier, display name and email. *)
Definition identity (u : User.t) : N * option string * option string :=
  (User._id u, User.name u, User.email u).

(** Identifiers and emails name one account each, and the identifier the
    store hands out next is not in use. *)
Definition store_consistent (w : World.t) : Prop :=
  NoDup (map User._id (World.users w))
  /\ NoDup (map User.email (World.users w))
  /\ Forall (fun u => (User._id u < World.next_id w)%N) (World.users w).

(** The counter stays within the five attempts, a lock sits exactly at
    five, and only verified accounts have failures counted. *)
Definition counter_in_range (u : User.t) : Prop :=
  0 <= User.loginAttempts u <= 5
  /\ (User.isLocked u = true <-> User.loginAttempts u = 5)
  /\ (0 < User.loginAttempts u -> User.isVerified u = true).

(** The five assignments the handlers make to a stored account before
    [save], with the guards each one sits behind. *)
Inductive account_step : Endpoint -> User.t -> User.t -> Prop :=
| step_failure v :
    User.isVerified v = true -> User.isLocked v = false ->
    User.loginAttempts v + 1 < 5 ->
    account_step SignIn v
      (User.set_loginAttempts (User.loginAttempts v + 1) v)
| step_lock v :
    User.isVerified v = true -> User.isLocked v = false ->
    5 <= User.loginAttempts v + 1 ->
    account_step SignIn v
      (User.set_isLocked true
         (User.set_loginAttempts (User.loginAttempts v + 1) v))
| step_success v :
    User.isVerified v = true -> User.isLocked v = false ->
    0 < User.loginAttempts v ->
    account_step SignIn v (User.set_loginAttempts 0 v)
| step_reset v hashed :
    account_step ResetPassword v
      (User.set_isLocked false
         (User.set_loginAttempts 0 (User.set_password hashed v)))
| step_verify v :
    User.isVerified v = false ->
    account_step VerifyEmail v (User.set_isVerified true v).

(** A token the route accepts at [clock] as naming the account [uid]. *)
Definition token_valid `{L : Libs} (token : string) (clock : Z) (uid : N)
  : Prop :=
  token <> "" /\ jwt_verify token JWT_SECRET clock = inr uid.

(** A sign-in request for [e] whose password is the string [p]. *)
Definition login_with (e : option string) (p : string) (req : Req.t) : Prop :=
  Body.email (Req.body req) = e /\ Body.password (Req.body req) = Some p.

(** Bob as the store holds him after his sign-up into Alice's world. *)
Definition bob_verified : User.t := User.set_isVerified true bob.

(** The account as reset-password stores it: new hash, counter 0, no lock. *)
Definition reset_account (hashed : string) (u : User.t) : User.t :=
  User.set_isLocked false
    (User.set_loginAttempts 0 (User.set_password hashed u)).

(** The answers the composed runs below meet. *)
Definition reset_ok : Outcome :=
  Responded (json 200 true "Password reset successful" NoData).

Definition verified_ok : Outcome :=
  Responded (json 200 true "Email verified successfully" NoData).

Definition signed_in (token : string) (u : User.t) : Outcome :=
  Responded (json 200 true "User signed in successfully"
               (SessionData token u)).

Definition verify_first : Outcome :=
  Forwarded (new_Error "Please verify your email before signing in" 403).

(** ** Properties *)

Section StoreFacts.

Lemma opt_string_eqb_eq a b : opt_string_eqb a b = true <-> a = b.
Proof.
  unfold opt_string_eqb, strict_neq.
  destruct a as [x|], b as [y|]; cbn; try (split; congruence).
  rewrite negb_involutive, String.eqb_eq. split; congruence.
Qed.

Lemma strict_neq_true a b : strict_neq a b = true <-> a <> b.
Proof.
  rewrite <- opt_string_eqb_eq. unfold opt_string_eqb.
  destruct (strict_neq a b); cbn; split; congruence.
Qed.

Lemma find_by_email_found e us u :
  find_by_email e us = Some u -> In u us /\ User.email u = e.
Proof.
  intros H. apply find_some in H. now rewrite opt_string_eqb_eq in H.
Qed.

Lemma find_by_id_found i us u :
  find_by_id i us = Some u -> In u us /\ User._id u = i.
Proof.
  intros H. apply find_some in H. now rewrite N.eqb_eq in H.
Qed.

(** Saving a document that kept its [_id] and email makes it the one
    [findOne] returns. *)
Lemma find_by_email_replace e us u u' :
  find_by_email e us = Some u ->
  User._id u' = User._id u -> User.email u' = e ->
  find_by_email e (replace_doc u' us) = Some u'.
Proof.
  intros Hf Hid He. induction us as [|d us IH]; cbn in *; [discriminate|].
  assert (Hu' : opt_string_eqb (User.email u') e = true)
    by now apply opt_string_eqb_eq.
  destruct (N.eqb_spec (User._id d) (User._id u')) as [Hd|Hd].
  - now rewrite Hu'.
  - destruct (opt_string_eqb (User.email d) e) eqn:Hde.
    + injection Hf as ->. congruence.
    + now apply IH.
Qed.

Lemma find_by_id_replace i us u u' :
  find_by_id i us = Some u ->
  User._id u' = User._id u ->
  find_by_id i (replace_doc u' us) = Some u'.
Proof.
  intros Hf Hid.
  assert (Hi : User._id u' = i).
  { apply find_by_id_found in Hf. destruct Hf; congruence. }
  induction us as [|d us IH]; cbn in *; [discriminate|].
  destruct (N.eqb_spec (User._id d) (User._id u')) as [Hd|Hd].
  - rewrite Hi, N.eqb_refl. reflexivity.
  - destruct (N.eqb_spec (User._id d) i) as [Hdi|Hdi]; [congruence|].
    now apply IH.
Qed.

Lemma replace_doc_twice u1 u2 us :
  User._id u1 = User._id u2 ->
  replace_doc u2 (replace_doc u1 us) = replace_doc u2 us.
Proof.
  intros Hid. unfold replace_doc. rewrite map_map.
  apply map_ext. intros d. rewrite Hid.
  destruct (N.eqb_spec (User._id d) (User._id u2)) as [Hd|Hd].
  - now rewrite Hid, N.eqb_refl.
  - apply N.eqb_neq in Hd. now rewrite Hd.
Qed.

Lemma replace_doc_Forall (P : User.t -> Prop) u us :
  P u -> Forall P us -> Forall P (replace_doc u us).
Proof.
  intros Hu Hus. unfold replace_doc. apply Forall_map.
  eapply Forall_impl; [|exact Hus].
  intros d Hd. now destruct (User._id d =? User._id u)%N.
Qed.

End StoreFacts.

Section SignInFacts.
Context `{L : Libs}.

Lemma or_zero_id n : or_zero n = n.
Proof. unfold or_zero. destruct (Z.eqb_spec n 0); congruence. Qed.

(** One sign-in with a wrong password on a verified, unlocked account. *)
Lemma signIn_wrong amb req w e u :
  find_by_email e (World.users w) = Some u ->
  User.isVerified u = true -> User.isLocked u = false ->
  wrong_password e u req ->
  let n := User.loginAttempts u + 1 in
  signIn amb req w =
    if 5 <=? n then
      (Forwarded locked_error,
       World.set_users
         (replace_doc (User.set_isLocked true (User.set_loginAttempts n u))
                      (World.users w)) w)
    else
      (Forwarded (invalid_password_error (string_of_Z (5 - n))),
       World.mk (replace_doc (User.set_loginAttempts n u) (World.users w))
                (World.logs w ++ [failed_entry e u])
                (World.outbox w) (World.next_id w)).
Proof.
  intros Hf Hv Hl [He (p & Hp & Hc)] n.
  unfold signIn, handler, bind, User_findOne. cbn.
  rewrite He, Hf. cbn. rewrite Hv, Hl. cbn.
  rewrite Hp. cbn. rewrite Hc. cbn.
  rewrite or_zero_id. fold n.
  destruct (5 <=? n); reflexivity.
Qed.

(** The same step, taken after [k] earlier failures on an account that
    started at zero. *)
Lemma signIn_wrong_after amb req w e u k :
  find_by_email e (World.users w) = Some u ->
  User.isVerified u = true -> User.isLocked u = false ->
  User.loginAttempts u = 0 ->
  wrong_password e u req ->
  signIn amb req (after_failures w e u k) =
    if (4 <=? k)%nat then
      (Forwarded locked_error, after_lock w e u k)
    else
      (Forwarded
         (invalid_password_error (string_of_Z (5 - Z.of_nat (S k)))),
       after_failures w e u (S k)).
Proof.
  intros Hf Hv Hl H0 Hw.
  replace (4 <=? k)%nat with (5 <=? Z.of_nat (S k))
    by (destruct (Z.leb_spec 5 (Z.of_nat (S k)));
        destruct (Nat.leb_spec 4 k); trivial; lia).
  assert (He : User.email u = e) by (now apply find_by_email_found in Hf).
  rewrite (signIn_wrong amb req (after_failures w e u k) e
             (User.set_loginAttempts (Z.of_nat k) u)); trivial.
  - cbn [User.loginAttempts User.set_loginAttempts].
    replace (Z.of_nat k + 1) with (Z.of_nat (S k)) by lia.
    unfold after_failures, after_lock, World.set_users.
    cbn [World.users World.logs World.outbox World.next_id].
    rewrite !replace_doc_twice by reflexivity.
    destruct (5 <=? Z.of_nat (S k)); [reflexivity|].
    f_equal. f_equal.
    rewrite <- app_assoc. f_equal.
    change (failed_entry e (User.set_loginAttempts (Z.of_nat k) u))
      with (failed_entry e u).
    symmetry. apply repeat_cons.
  - cbn. now apply find_by_email_replace with (u := u).
Qed.

End SignInFacts.

(** ** The lockout sequence *)

Section Lockout.
Context `{L : Libs}.

Lemma after_failures_found w e u k :
  find_by_email e (World.users w) = Some u ->
  find_by_email e (World.users (after_failures w e u k))
  = Some (User.set_loginAttempts (Z.of_nat k) u).
Proof.
  intros Hf. cbn. apply find_by_email_replace with (u := u); trivial.
  now apply find_by_email_found in Hf.
Qed.

(** C1: on a verified, unlocked account whose counter is 0, five sign-in
    calls with wrong passwords end as follows. Calls 1 to 4 are each
    forwarded as a 401 error whose message counts 4, 3, 2 and 1 attempts
    remaining, and each leaves the counter stored one higher with one more
    failed entry, reason "Invalid password", in the log. Call 5 is forwarded
    as a 403 error, stores the counter 5 with [isLocked] set, and adds no
    log entry. *)
Theorem signIn_five_wrong_passwords w e u calls :
  find_by_email e (World.users w) = Some u ->
  User.isVerified u = true ->
  User.isLocked u = false ->
  User.loginAttempts u = 0 ->
  List.length calls = 5%nat ->
  Forall (fun c => wrong_password e u (snd c)) calls ->
  serve (sign_in_calls calls) w =
    [(Forwarded (invalid_password_error "4"), after_failures w e u 1);
     (Forwarded (invalid_password_error "3"), after_failures w e u 2);
     (Forwarded (invalid_password_error "2"), after_failures w e u 3);
     (Forwarded (invalid_password_error "1"), after_failures w e u 4);
     (Forwarded locked_error, after_lock w e u 4)]
  /\ (forall k,
        find_by_email e (World.users (after_failures w e u k))
        = Some (User.set_loginAttempts (Z.of_nat k) u))
  /\ find_by_email e (World.users (after_lock w e u 4))
     = Some (User.set_isLocked true (User.set_loginAttempts 5 u))
  /\ World.logs (after_lock w e u 4) = World.logs (after_failures w e u 4).
Proof.
  intros Hf Hv Hl H0 Hlen Hall.
  destruct calls as [|c1 [|c2 [|c3 [|c4 [|c5 [|]]]]]]; try discriminate.
  repeat match goal with
         | H : Forall _ (_ :: _) |- _ => inversion H; subst; clear H
         end.
  repeat split.
  - cbn [sign_in_calls map serve dispatch fst snd].
    rewrite (signIn_wrong (fst c1) (snd c1) w e u); trivial.
    rewrite H0.
    change (5 <=? 0 + 1) with false. cbv iota.
    change (string_of_Z (5 - (0 + 1))) with "4".
    change (World.mk
              (replace_doc (User.set_loginAttempts (0 + 1) u) (World.users w))
              (World.logs w ++ [failed_entry e u])
              (World.outbox w) (World.next_id w))
      with (after_failures w e u 1).
    cbn [snd].
    rewrite (signIn_wrong_after (fst c2) (snd c2) w e u 1); trivial.
    rewrite (signIn_wrong_after (fst c3) (snd c3) w e u 2); trivial.
    rewrite (signIn_wrong_after (fst c4) (snd c4) w e u 3); trivial.
    rewrite (signIn_wrong_after (fst c5) (snd c5) w e u 4); trivial.
  - intros k. now apply after_failures_found.
  - cbn. apply find_by_email_replace with (u := u); trivial.
    now apply find_by_email_found in Hf.
Qed.

End Lockout.

Lemma signIn_five_wrong_passwords_witness :
  serve (L := plain_libs) (sign_in_calls five_bad_logins) alice_world =
    [(Forwarded (invalid_password_error "4"),
      after_failures alice_world (Some "a@x.com") alice 1);
     (Forwarded (invalid_password_error "3"),
      after_failures alice_world (Some "a@x.com") alice 2);
     (Forwarded (invalid_password_error "2"),
      after_failures alice_world (Some "a@x.com") alice 3);
     (Forwarded (invalid_password_error "1"),
      after_failures alice_world (Some "a@x.com") alice 4);
     (Forwarded locked_error,
      after_lock alice_world (Some "a@x.com") alice 4)].
Proof.
  apply (signIn_five_wrong_passwords (L := plain_libs) alice_world
           (Some "a@x.com") alice five_bad_logins); try reflexivity.
  repeat constructor; eexists; split; reflexivity.
Defined.

(** ** The lock invariant *)

Ltac run_handler :=
  unfold handler, bind, ret, throw, User_findOne, User_findById, User_create,
    save, sendMail, createLoginLog, LoginLogs_create, hash_password,
    compare_password;
  cbn.

Ltac split_cases :=
  repeat match goal with
         | |- context [match ?x with _ => _ end] =>
             lazymatch x with
             | context [match _ with _ => _ end] => fail
             | _ => destruct x eqn:?; cbn
             end
         end.

Section Invariant.
Context `{L : Libs}.

Lemma signUp_invariant amb req w :
  lock_invariant w -> lock_invariant (snd (signUp amb req w)).
Proof.
  unfold lock_invariant, signUp. intros Hw. run_handler. split_cases; trivial.
  all: apply Forall_app; split; trivial.
  all: constructor; [|constructor].
  all: unfold locked_after_five; cbn; discriminate.
Qed.

Lemma signIn_invariant amb req w :
  lock_invariant w -> lock_invariant (snd (signIn amb req w)).
Proof.
  unfold lock_invariant, signIn. intros Hw. run_handler. split_cases; trivial.
  all: apply replace_doc_Forall; trivial.
  all: unfold locked_after_five; cbn; intros; try congruence.
  all: lia.
Qed.

Lemma signOut_invariant amb req w :
  lock_invariant w -> lock_invariant (snd (signOut amb req w)).
Proof. trivial. Qed.

Lemma forgotPassword_invariant amb req w :
  lock_invariant w -> lock_invariant (snd (forgotPassword amb req w)).
Proof.
  unfold lock_invariant, forgotPassword. intros Hw. run_handler.
  split_cases; trivial.
Qed.

Lemma resetPassword_invariant amb req w :
  lock_invariant w -> lock_invariant (snd (resetPassword amb req w)).
Proof.
  unfold lock_invariant, resetPassword. intros Hw. run_handler.
  split_cases; trivial.
  all: apply replace_doc_Forall; trivial.
  all: unfold locked_after_five; cbn; discriminate.
Qed.

Lemma verifyEmail_invariant amb req w :
  lock_invariant w -> lock_invariant (snd (verifyEmail amb req w)).
Proof.
  unfold lock_invariant, verifyEmail. intros Hw. run_handler.
  split_cases; trivial.
  apply replace_doc_Forall; trivial.
  match goal with
  | H : find_by_id _ _ = Some ?u |- _ =>
      apply find_by_id_found in H; destruct H as [Hin _];
      rewrite Forall_forall in Hw; exact (Hw u Hin)
  end.
Qed.

Lemma dispatch_invariant ep amb req w :
  lock_invariant w -> lock_invariant (snd (dispatch ep amb req w)).
Proof.
  destruct ep; cbn [dispatch].
  - apply signUp_invariant.
  - apply signIn_invariant.
  - apply signOut_invariant.
  - apply forgotPassword_invariant.
  - apply resetPassword_invariant.
  - apply verifyEmail_invariant.
Qed.

Lemma serve_invariant calls : forall w,
  lock_invariant w ->
  Forall (fun r => lock_invariant (snd r)) (serve calls w).
Proof.
  induction calls as [|[[ep amb] req] rest IH]; intros w Hw; cbn [serve].
  - constructor.
  - pose proof (dispatch_invariant ep amb req w Hw) as H1.
    constructor; [exact H1 | now apply IH].
Qed.

Lemma last_cons_default {A} (x d : A) l : last (x :: l) d = last l x.
Proof.
  revert x d. induction l as [|y l IH]; intros x d; [reflexivity|].
  change (last (x :: y :: l) d) with (last (y :: l) d).
  now rewrite (IH y d), (IH y x).
Qed.

(** [final] is the world of the last outcome [serve] lists. *)
Lemma final_serve calls : forall w,
  final calls w = last (map snd (serve calls w)) w.
Proof.
  induction calls as [|[[ep amb] req] rest IH]; intros w; [reflexivity|].
  cbn [final serve map]. rewrite last_cons_default. apply IH.
Qed.

Lemma final_invariant calls : forall w,
  lock_invariant w -> lock_invariant (final calls w).
Proof.
  induction calls as [|[[ep amb] req] rest IH]; intros w Hw; cbn [final].
  - exact Hw.
  - apply IH. now apply dispatch_invariant.
Qed.

(** C2: in every world reached from the empty store by any sequence of
    requests to the six endpoints (accounts enter it through sign-up only,
    unlocked and with counter 0), an account with [isLocked] set has
    [loginAttempts] at least 5. *)
Theorem locked_implies_five_attempts calls u :
  In u (World.users (final calls World.empty)) ->
  User.isLocked u = true ->
  5 <= User.loginAttempts u.
Proof.
  intros Hin.
  pose proof (final_invariant calls World.empty (Forall_nil _)) as Hinv.
  unfold lock_invariant in Hinv. rewrite Forall_forall in Hinv.
  exact (Hinv u Hin).
Qed.

End Invariant.

Lemma locked_implies_five_attempts_witness :
  In alice_locked (World.users (final (L := plain_libs) alice_story World.empty))
  /\ 5 <= User.loginAttempts alice_locked.
Proof.
  assert (Hin : In alice_locked
                   (World.users
                      (final (L := plain_libs) alice_story World.empty)))
    by (vm_compute; left; reflexivity).
  split; [exact Hin|].
  apply (locked_implies_five_attempts (L := plain_libs) alice_story
           alice_locked Hin).
  reflexivity.
Defined.

(** ** Successful sign-in, password reset and email verification *)

Section TokenFlows.
Context `{L : Libs}.

(** C3: on a verified, unlocked account whose counter is positive, a
    sign-in with the matching password stores the counter 0, signs a
    session token for the account, appends exactly one success entry to
    the log, and answers 200 with the token and the account. *)
Theorem signIn_success_resets_attempts amb req w e u p :
  find_by_email e (World.users w) = Some u ->
  User.isVerified u = true ->
  User.isLocked u = false ->
  0 < User.loginAttempts u ->
  Body.email (Req.body req) = e ->
  Body.password (Req.body req) = Some p ->
  bcrypt_compare p (User.password u) = true ->
  let u' := User.set_loginAttempts 0 u in
  let token :=
    jwt_sign (User._id u) JWT_SECRET JWT_EXPIRES_IN (Ambient.now amb) in
  signIn amb req w =
    (Responded (json 200 true "User signed in successfully"
                  (SessionData token u')),
     World.mk (replace_doc u' (World.users w))
              (World.logs w ++ [success_entry e u])
              (World.outbox w) (World.next_id w))
  /\ find_by_email e (replace_doc u' (World.users w)) = Some u'.
Proof.
  intros Hf Hv Hl Hpos He Hp Hc u' token. split.
  - unfold signIn. run_handler.
    rewrite He, Hf. cbn. rewrite Hv, Hl. cbn.
    rewrite Hp. cbn. rewrite Hc. cbn.
    apply Z.ltb_lt in Hpos. rewrite Hpos. reflexivity.
  - apply find_by_email_replace with (u := u); trivial.
    now apply find_by_email_found in Hf.
Qed.


(** C5: verify-email with a valid token on an unverified account stores
    the account with [isVerified] set and answers 200; a second call with
    the same token, still valid, answers directly with the 400 response
    "Email already verified" (nothing is handed to [next]) and leaves the
    world as the first call left it. *)
Theorem verifyEmail_replay_is_noop amb1 amb2 req1 req2 w uid u :
  jwt_verify (Req.token req1) JWT_SECRET (Ambient.now amb1) = inr uid ->
  Req.token req2 = Req.token req1 ->
  jwt_verify (Req.token req1) JWT_SECRET (Ambient.now amb2) = inr uid ->
  find_by_id uid (World.users w) = Some u ->
  User.isVerified u = false ->
  let u' := User.set_isVerified true u in
  let w1 := World.set_users (replace_doc u' (World.users w)) w in
  verifyEmail amb1 req1 w =
    (Responded (json 200 true "Email verified successfully" NoData), w1)
  /\ find_by_id uid (World.users w1) = Some u'
  /\ verifyEmail amb2 req2 w1 =
       (Responded (json 400 false "Email already verified" NoData), w1).
Proof.
  intros Hj1 Ht Hj2 Hf Hv u' w1.
  assert (Hf1 : find_by_id uid (World.users w1) = Some u')
    by (now apply find_by_id_replace with (u := u)).
  repeat split; trivial.
  - unfold verifyEmail. run_handler. rewrite Hj1. cbn.
    rewrite Hf. cbn. rewrite Hv. reflexivity.
  - unfold verifyEmail. run_handler. rewrite Ht, Hj2. cbn.
    cbn in Hf1. rewrite Hf1. reflexivity.
Qed.

End TokenFlows.

Lemma signIn_success_resets_attempts_witness :
  signIn (L := plain_libs) quiet (alice_login "p1") alice_two_failures =
    (Responded (json 200 true "User signed in successfully"
                  (SessionData "0" alice)),
     World.mk [alice]
              [failed_entry (Some "a@x.com") alice;
               failed_entry (Some "a@x.com") alice;
               success_entry (Some "a@x.com") alice]
              [] 1).
Proof.
  refine (proj1 (signIn_success_resets_attempts (L := plain_libs)
                   quiet (alice_login "p1") alice_two_failures
                   (Some "a@x.com") (User.set_loginAttempts 2 alice) "p1"
                   _ _ _ _ _ _ _)); reflexivity.
Defined.



Lemma verifyEmail_replay_is_noop_witness :
  verifyEmail (L := plain_libs) quiet (token_request "0") unverified_world =
    (Responded (json 200 true "Email verified successfully" NoData),
     alice_world)
  /\ verifyEmail (L := plain_libs) quiet (token_request "0") alice_world =
       (Responded (json 400 false "Email already verified" NoData),
        alice_world).
Proof.
  pose proof (verifyEmail_replay_is_noop (L := plain_libs) quiet quiet
                (token_request "0") (token_request "0") unverified_world
                0%N alice_unverified) as H.
  destruct H as (Hfirst & _ & Hsecond); try reflexivity.
  split; [exact Hfirst | exact Hsecond].
Defined.

(** ** Sign-up *)

Section SignUpFacts.
Context `{L : Libs}.

Lemma find_by_email_last e us u :
  find_by_email e us = None -> User.email u = e ->
  find_by_email e (us ++ [u]) = Some u.
Proof.
  intros Hn He. induction us as [|d us IH]; cbn in *.
  - apply opt_string_eqb_eq in He. now rewrite He.
  - destruct (opt_string_eqb (User.email d) e); [discriminate|].
    now apply IH.
Qed.

(** C6, amended: a sign-up call whose [password] differs from
    [confirmPassword] leaves the world as it was, so no account is created.
    Its result is the direct 400 response "Confirm password is empty" when
    [confirmPassword] is missing or empty; otherwise the 409 error "User
    already exists" when an account has the email; otherwise the 400 error
    "Passwords do not match". *)
Theorem signUp_mismatch_creates_nothing amb req w :
  Body.password (Req.body req) <> Body.confirmPassword (Req.body req) ->
  snd (signUp amb req w) = w
  /\ fst (signUp amb req w) =
       if negb (truthy (Body.confirmPassword (Req.body req))) then
         Responded (json 400 false "Confirm password is empty" NoData)
       else
         match find_by_email (Body.email (Req.body req)) (World.users w) with
         | Some _ => Forwarded (new_Error "User already exists" 409)
         | None => Forwarded (new_Error "Passwords do not match" 400)
         end.
Proof.
  intros Hne. apply strict_neq_true in Hne.
  unfold signUp. run_handler.
  destruct (truthy (Body.confirmPassword (Req.body req))); cbn;
    [|now split].
  destruct (find_by_email (Body.email (Req.body req)) (World.users w)); cbn;
    [now split|].
  rewrite Hne. now split.
Qed.

(** C9: when an otherwise valid sign-up (matching non-empty passwords, no
    account under the email) meets a failing mail transport, the transport's
    error is handed to [next] and the account created before the send is in
    the store, where a lookup by its email finds it. *)
Theorem signUp_mail_failure_keeps_account amb req w p err :
  Body.password (Req.body req) = Some p ->
  Body.confirmPassword (Req.body req) = Some p ->
  p <> "" ->
  find_by_email (Body.email (Req.body req)) (World.users w) = None ->
  Ambient.mailFailure amb = Some err ->
  let newUser :=
    User.mk (World.next_id w) (Body.name (Req.body req))
            (Body.email (Req.body req))
            (bcrypt_hash p (Ambient.salt amb)) false false 0 in
  signUp amb req w =
    (Forwarded err,
     World.mk (World.users w ++ [newUser]) (World.logs w) (World.outbox w)
              (N.succ (World.next_id w)))
  /\ find_by_email (Body.email (Req.body req)) (World.users w ++ [newUser])
     = Some newUser.
Proof.
  intros Hp Hc Hne Hf Hm newUser. split.
  - unfold signUp. run_handler.
    apply String.eqb_neq in Hne.
    rewrite Hc, Hp, Hf. cbn. rewrite Hne, String.eqb_refl. cbn.
    rewrite Hm. reflexivity.
  - now apply find_by_email_last.
Qed.

End SignUpFacts.

Lemma signUp_mismatch_creates_nothing_witness :
  signUp (L := plain_libs) quiet
         (request (Some "Bob") (Some "b@x.com") (Some "p") (Some "q") "")
         alice_world
  = (Forwarded (new_Error "Passwords do not match" 400), alice_world).
Proof.
  pose proof (signUp_mismatch_creates_nothing (L := plain_libs) quiet
                (request (Some "Bob") (Some "b@x.com") (Some "p") (Some "q") "")
                alice_world) as H.
  destruct H as [Hw Ho]; [discriminate|].
  rewrite (surjective_pairing (signUp _ _ _)), Hw, Ho. reflexivity.
Defined.

(** C6 as stated fails: with Alice's address already registered and two
    different non-empty passwords, sign-up ends in the 409 conflict error,
    not in a 400. *)
Lemma signUp_mismatch_conflict_counterexample :
  Body.password (Req.body eve_signup)
  <> Body.confirmPassword (Req.body eve_signup)
  /\ signUp (L := plain_libs) quiet eve_signup alice_world
     = (Forwarded (JsError.mk "User already exists" (Some 409)), alice_world).
Proof. split; [discriminate | reflexivity]. Qed.

Lemma signUp_mail_failure_keeps_account_witness :
  signUp (L := plain_libs) mail_down bob_signup alice_world
  = (Forwarded smtp_down, World.mk [alice; bob] [] [] 2).
Proof.
  refine (proj1 (signUp_mail_failure_keeps_account (L := plain_libs)
                   mail_down bob_signup alice_world "p" smtp_down
                   _ _ _ _ _)); try reflexivity; discriminate.
Defined.

(** ** Error propagation *)

Section Propagation.
Context `{L : Libs}.

(** C7, amended: whatever the endpoint and the request, an error handed to
    [next] carries one of the status codes 400, 401, 403, 404 or 409,
    unless it was thrown by a collaborator (bcrypt on a missing password,
    the mail transport), which is handed on as thrown. A direct response
    with [success: false] arises in two places only: verify-email's 400
    "Email already verified" and sign-up's 400 "Confirm password is empty"
    for a missing or empty [confirmPassword]. *)
Theorem failures_forwarded_or_special_cased ep amb req w :
  match fst (dispatch ep amb req w) with
  | Responded r =>
      Response.success r = true
      \/ (ep = VerifyEmail
          /\ r = json 400 false "Email already verified" NoData)
      \/ (ep = SignUp
          /\ truthy (Body.confirmPassword (Req.body req)) = false
          /\ r = json 400 false "Confirm password is empty" NoData)
  | Forwarded e =>
      (exists c, JsError.statusCode e = Some c
                 /\ In c [400; 401; 403; 404; 409])
      \/ e = illegal_arguments
      \/ Ambient.mailFailure amb = Some e
  end.
Proof.
  destruct ep; cbn [dispatch];
    unfold signUp, signIn, signOut, forgotPassword, resetPassword,
      verifyEmail;
    run_handler; split_cases;
    repeat match goal with
           | H : (_, _) = (_, _) |- _ => inversion H; subst; clear H
           | H : Normal _ = Normal _ |- _ => inversion H; subst; clear H
           | H : Thrown _ = Thrown _ |- _ => inversion H; subst; clear H
           | H : Normal _ = Thrown _ |- _ => discriminate H
           | H : Thrown _ = Normal _ |- _ => discriminate H
           | H : Responded _ = Responded _ |- _ =>
               inversion H; subst; clear H
           | H : Forwarded _ = Forwarded _ |- _ =>
               inversion H; subst; clear H
           | H : Responded _ = Forwarded _ |- _ => discriminate H
           | H : Forwarded _ = Responded _ |- _ => discriminate H
           end;
    cbn;
    try (left; reflexivity);
    try (left; eexists; split; [reflexivity | cbn; tauto]);
    try (right; left; reflexivity);
    try (right; right; assumption);
    try (right; left; split; reflexivity).
  all: right; right; repeat split; trivial; now apply negb_true_iff.
Qed.

(** C8, amended: a forgot-password call whose email is missing or empty is
    answered with the error "Email is required" under status 401, the status
    the contract lists for this route, and the world is untouched. The 404
    "User not found" is the answer when the email is present and no account
    has it, and in no other case: when an account has it, the answer is the
    200 or the error of the mail transport. *)
Theorem forgotPassword_missing_email_is_401 amb req w :
  (truthy (Body.email (Req.body req)) = false ->
   forgotPassword amb req w
   = (Forwarded (JsError.mk "Email is required" (Some 401)), w))
  /\ (truthy (Body.email (Req.body req)) = true ->
      find_by_email (Body.email (Req.body req)) (World.users w) = None ->
      forgotPassword amb req w
      = (Forwarded (JsError.mk "User not found" (Some 404)), w))
  /\ (truthy (Body.email (Req.body req)) = true ->
      forall u,
        find_by_email (Body.email (Req.body req)) (World.users w) = Some u ->
        match Ambient.mailFailure amb with
        | Some err => forgotPassword amb req w = (Forwarded err, w)
        | None =>
            exists r,
              fst (forgotPassword amb req w) = Responded r
              /\ Response.status r = 200
        end).
Proof.
  repeat split.
  - intros He. unfold forgotPassword. run_handler. now rewrite He.
  - intros He Hf. unfold forgotPassword. run_handler.
    rewrite He. cbn. now rewrite Hf.
  - intros He u Hf. unfold forgotPassword. run_handler.
    rewrite He. cbn. rewrite Hf. cbn.
    destruct (Ambient.mailFailure amb); [reflexivity|].
    eexists. split; reflexivity.
Qed.

(** C10: every entry a sign-in call adds to the login log has a null
    [ipAddress] and a null [userAgent], whatever address and agent the
    request carries; a call adds at most one entry. *)
Theorem signIn_log_has_no_client_info amb req w :
  exists entries : list LoginLog.t,
    World.logs (snd (signIn amb req w)) = (World.logs w ++ entries)%list
    /\ (List.length entries <= 1)%nat
    /\ Forall (fun entry => LoginLog.ipAddress entry = None
                            /\ LoginLog.userAgent entry = None) entries.
Proof.
  unfold signIn. run_handler. split_cases.
  all: first
         [ exists []; rewrite app_nil_r;
           repeat split; [cbn; lia | constructor]
         | eexists [_]; repeat split; [cbn; lia | ];
           constructor; [split; reflexivity | constructor] ].
Qed.

End Propagation.

(** Counterexample to C7 as stated: a sign-up without [confirmPassword] is
    answered directly on [res] with a 400; no error reaches [next]. *)
Lemma signUp_unconfirmed_bypasses_next_counterexample :
  signUp (L := plain_libs) quiet bob_signup_unconfirmed alice_world
  = (Responded (json 400 false "Confirm password is empty" NoData),
     alice_world).
Proof. reflexivity. Qed.

(** Counterexample to C8 as stated: a forgot-password call without an email
    is answered under status 401, not 400. *)
Lemma forgotPassword_missing_email_counterexample :
  truthy (Body.email (Req.body forgot_nothing)) = false
  /\ fst (forgotPassword (L := plain_libs) quiet forgot_nothing alice_world)
     = Forwarded (JsError.mk "Email is required" (Some 401))
  /\ JsError.statusCode (JsError.mk "Email is required" (Some 401))
     <> Some 400.
Proof. repeat split. discriminate. Qed.

Lemma forgotPassword_missing_email_is_401_witness :
  forgotPassword (L := plain_libs) quiet forgot_nothing alice_world
  = (Forwarded (JsError.mk "Email is required" (Some 401)), alice_world).
Proof.
  apply (proj1 (forgotPassword_missing_email_is_401 (L := plain_libs)
                  quiet forgot_nothing alice_world)).
  reflexivity.
Defined.

(** ** More facts about the collections *)

Section MoreStoreFacts.

Lemma NoDup_map_inj {A B} (f : A -> B) l a b :
  NoDup (map f l) -> In a l -> In b l -> f a = f b -> a = b.
Proof.
  induction l as [|x l IH]; cbn; intros Hnd Ha Hb Hf; [contradiction|].
  inversion Hnd as [|? ? Hnotin Hnd']; subst.
  destruct Ha as [->|Ha], Hb as [->|Hb]; trivial.
  - exfalso. apply Hnotin. rewrite Hf. now apply in_map.
  - exfalso. apply Hnotin. rewrite <- Hf. now apply in_map.
  - now apply IH.
Qed.

Lemma find_by_id_In us u :
  NoDup (map User._id us) -> In u us -> find_by_id (User._id u) us = Some u.
Proof.
  intros Hnd Hin. unfold find_by_id.
  destruct (find (fun d => (User._id d =? User._id u)%N) us) as [d|] eqn:Hf.
  - apply find_some in Hf. destruct Hf as [Hd Hid].
    apply N.eqb_eq in Hid. f_equal.
    now apply (NoDup_map_inj User._id us).
  - apply (find_none _ _ Hf) in Hin. now rewrite N.eqb_refl in Hin.
Qed.

Lemma find_by_id_app_l i us vs u :
  find_by_id i us = Some u -> find_by_id i (us ++ vs) = Some u.
Proof.
  unfold find_by_id. induction us as [|d us IH]; cbn; [discriminate|].
  destruct (User._id d =? i)%N; trivial.
Qed.

Lemma find_by_id_app_other i us v :
  User._id v <> i -> find_by_id i (us ++ [v]) = find_by_id i us.
Proof.
  intros Hne. unfold find_by_id.
  induction us as [|d us IH]; cbn.
  - apply N.eqb_neq in Hne. now rewrite Hne.
  - destruct (User._id d =? i)%N; trivial.
Qed.

Lemma find_by_id_fresh i us :
  Forall (fun u => (User._id u < i)%N) us -> find_by_id i us = None.
Proof.
  intros Hall. unfold find_by_id. induction Hall as [|d us Hd _ IH]; cbn.
  - reflexivity.
  - destruct (N.eqb_spec (User._id d) i); [lia | exact IH].
Qed.

Lemma find_by_id_replace_other i u' us :
  User._id u' <> i ->
  find_by_id i (replace_doc u' us) = find_by_id i us.
Proof.
  intros Hne. unfold find_by_id, replace_doc.
  induction us as [|d us IH]; cbn; [reflexivity|].
  destruct (N.eqb_spec (User._id d) (User._id u')) as [Hd|Hd].
  - apply N.eqb_neq in Hne. rewrite Hne.
    rewrite Hd, Hne. exact IH.
  - destruct (User._id d =? i)%N; trivial.
Qed.

Lemma find_by_email_app_l e us vs u :
  find_by_email e us = Some u -> find_by_email e (us ++ vs) = Some u.
Proof.
  unfold find_by_email. induction us as [|d us IH]; cbn; [discriminate|].
  destruct (opt_string_eqb (User.email d) e); trivial.
Qed.

Lemma find_by_email_None e us :
  find_by_email e us = None -> ~ In e (map User.email us).
Proof.
  intros Hf Hin. apply in_map_iff in Hin. destruct Hin as (d & He & Hd).
  apply (find_none _ _ Hf) in Hd.
  apply opt_string_eqb_eq in He. congruence.
Qed.

Lemma map_id_replace u' us :
  map User._id (replace_doc u' us) = map User._id us.
Proof.
  unfold replace_doc. rewrite map_map. apply map_ext. intros d.
  destruct (N.eqb_spec (User._id d) (User._id u')); congruence.
Qed.

(** In a store whose identifiers are distinct, saving [u'] over [u] rewrites
    that one document. *)
Lemma map_replace_same {B} (f : User.t -> B) u u' us :
  NoDup (map User._id us) -> In u us ->
  User._id u' = User._id u -> f u' = f u ->
  map f (replace_doc u' us) = map f us.
Proof.
  intros Hnd Hin Hid Hf. unfold replace_doc. rewrite map_map.
  apply map_ext_in. intros d Hd.
  destruct (N.eqb_spec (User._id d) (User._id u')) as [Heq|]; trivial.
  assert (d = u) by (apply (NoDup_map_inj User._id us); congruence).
  congruence.
Qed.

Lemma replace_doc_In u u' us d :
  NoDup (map User._id us) -> In u us -> User._id u' = User._id u ->
  In d (replace_doc u' us) -> d = u' \/ (In d us /\ d <> u).
Proof.
  intros Hnd Hin Hid Hd. unfold replace_doc in Hd.
  apply in_map_iff in Hd. destruct Hd as (x & Hx & Hxin).
  destruct (N.eqb_spec (User._id x) (User._id u')) as [Heq|Hne].
  - left. congruence.
  - right. subst d. split; trivial. intros ->. congruence.
Qed.

Lemma account_step_identity ep v v' :
  account_step ep v v' -> identity v' = identity v.
Proof. now destruct 1. Qed.

Lemma account_step_id ep v v' :
  account_step ep v v' -> User._id v' = User._id v.
Proof. now destruct 1. Qed.

End MoreStoreFacts.

(** ** What one call does to the store *)

Ltac run_keep :=
  unfold handler, bind, ret, throw, User_findOne, User_findById, User_create,
    save, sendMail, createLoginLog, LoginLogs_create, hash_password,
    compare_password;
  cbn -[or_zero Z.add Z.leb Z.ltb].

Ltac split_keep :=
  repeat match goal with
         | |- context [match ?x with _ => _ end] =>
             lazymatch x with
             | context [match _ with _ => _ end] => fail
             | _ => destruct x eqn:?; cbn -[or_zero Z.add Z.leb Z.ltb]
             end
         end.

Ltac found_account :=
  match goal with
  | H : find_by_email _ _ = Some _ |- _ =>
      apply find_by_email_found in H; destruct H
  | H : find_by_id _ _ = Some _ |- _ =>
      apply find_by_id_found in H; destruct H
  end.

Section Frame.
Context `{L : Libs}.

(** Every call leaves the accounts alone, or appends the account of a
    sign-up, or saves one stored account after one [account_step]. *)
Lemma dispatch_cases ep amb req w :
  (World.users (snd (dispatch ep amb req w)) = World.users w
   /\ World.next_id (snd (dispatch ep amb req w)) = World.next_id w)
  \/ (ep = SignUp
      /\ find_by_email (Body.email (Req.body req)) (World.users w) = None
      /\ exists hashed : string,
           World.users (snd (dispatch ep amb req w))
           = (World.users w
              ++ [User.mk (World.next_id w) (Body.name (Req.body req))
                          (Body.email (Req.body req)) hashed false false 0])%list
           /\ World.next_id (snd (dispatch ep amb req w))
              = N.succ (World.next_id w))
  \/ (exists v v',
         In v (World.users w) /\ account_step ep v v'
         /\ World.users (snd (dispatch ep amb req w))
            = replace_doc v' (World.users w)
         /\ World.next_id (snd (dispatch ep amb req w)) = World.next_id w).
Proof.
  destruct ep; cbn [dispatch];
    unfold signUp, signIn, signOut, forgotPassword, resetPassword,
      verifyEmail;
    run_keep; split_keep;
    try (left; split; reflexivity);
    try (right; left; repeat split; trivial; eexists; split; reflexivity).
  all: right; right; found_account.
  all: rewrite ?or_zero_id in *.
  all: repeat match goal with
              | H : negb _ = false |- _ => apply negb_false_iff in H
              | H : negb _ = true |- _ => apply negb_true_iff in H
              end.
  all: eexists _, _; split; [eassumption|]; split;
         [|split; reflexivity].
  - apply step_lock; trivial; lia.
  - apply step_failure; trivial; lia.
  - apply step_success; trivial; lia.
  - apply step_reset.
  - apply step_verify; trivial.
Qed.

End Frame.

(** ** Invariants of the store *)

Ltac concrete_store :=
  unfold store_consistent; cbn; repeat split; repeat constructor; cbn;
  intuition (try discriminate; try lia).

Section StoreInvariants.
Context `{L : Libs}.

Lemma NoDup_snoc {A} (x : A) l : NoDup l -> ~ In x l -> NoDup (l ++ [x]).
Proof.
  induction l as [|y l IH]; cbn; intros Hnd Hx.
  - constructor; [tauto | constructor].
  - inversion Hnd; subst. constructor.
    + rewrite in_app_iff. cbn. intuition congruence.
    + apply IH; tauto.
Qed.

Lemma dispatch_consistent ep amb req w :
  store_consistent w -> store_consistent (snd (dispatch ep amb req w)).
Proof.
  intros (Hid & Hem & Hlt). unfold store_consistent.
  destruct (dispatch_cases ep amb req w)
    as [[Hu Hn] | [(_ & Hnone & hashed & Hu & Hn)
                  | (v & v' & Hin & Hstep & Hu & Hn)]];
    rewrite Hu, Hn.
  - tauto.
  - rewrite !map_app. cbn. repeat split.
    + apply NoDup_snoc; trivial. intros Hin.
      apply in_map_iff in Hin. destruct Hin as (d & Hd & Hdin).
      rewrite Forall_forall in Hlt. specialize (Hlt d Hdin). lia.
    + apply NoDup_snoc; trivial. now apply find_by_email_None.
    + apply Forall_app. split.
      * eapply Forall_impl; [|exact Hlt]. cbn. intros; lia.
      * constructor; [cbn; lia | constructor].
  - pose proof (account_step_identity _ _ _ Hstep) as Hident.
    unfold identity in Hident. injection Hident as Hi Hnm He.
    rewrite map_id_replace.
    rewrite (map_replace_same User.email v v'); trivial.
    repeat split; trivial.
    apply replace_doc_Forall; trivial.
    rewrite Hi. rewrite Forall_forall in Hlt. now apply Hlt.
Qed.

Lemma final_consistent calls : forall w,
  store_consistent w -> store_consistent (final calls w).
Proof.
  induction calls as [|[[ep amb] req] rest IH]; intros w Hw; cbn [final].
  - exact Hw.
  - apply IH. now apply dispatch_consistent.
Qed.

Lemma empty_consistent : store_consistent World.empty.
Proof. concrete_store. Qed.

Lemma account_step_range ep v v' :
  account_step ep v v' -> counter_in_range v -> counter_in_range v'.
Proof.
  unfold counter_in_range.
  destruct 1; cbn; intros (Hr & Hl & Hv); repeat split;
    try lia; try congruence; intros; try discriminate; try lia; trivial.
  all: try (destruct Hl as [Hl1 Hl2];
            assert (User.loginAttempts v <> 5)
              by (intros E; apply Hl2 in E; congruence); lia).
  all: now apply Hl.
Qed.

Lemma dispatch_range ep amb req w :
  Forall counter_in_range (World.users w) ->
  Forall counter_in_range (World.users (snd (dispatch ep amb req w))).
Proof.
  intros Hall.
  destruct (dispatch_cases ep amb req w)
    as [[Hu _] | [(_ & _ & hashed & Hu & _)
                 | (v & v' & Hin & Hstep & Hu & _)]];
    rewrite Hu; trivial.
  - apply Forall_app. split; trivial.
    constructor; [|constructor].
    unfold counter_in_range; cbn. repeat split; try lia; discriminate.
  - apply replace_doc_Forall; trivial.
    apply (account_step_range _ _ _ Hstep).
    rewrite Forall_forall in Hall. now apply Hall.
Qed.

Lemma final_range calls : forall w,
  Forall counter_in_range (World.users w) ->
  Forall counter_in_range (World.users (final calls w)).
Proof.
  induction calls as [|[[ep amb] req] rest IH]; intros w Hw; cbn [final].
  - exact Hw.
  - apply IH. now apply dispatch_range.
Qed.

(** The account stored under [i] is still stored under [i] after any call,
    untouched or one [account_step] further. *)
Lemma dispatch_account ep amb req w i u :
  store_consistent w ->
  find_by_id i (World.users w) = Some u ->
  exists u',
    find_by_id i (World.users (snd (dispatch ep amb req w))) = Some u'
    /\ (u' = u \/ account_step ep u u').
Proof.
  intros (Hid & _ & _) Hf.
  destruct (dispatch_cases ep amb req w)
    as [[Hu _] | [(_ & _ & hashed & Hu & _)
                 | (v & v' & Hin & Hstep & Hu & _)]];
    rewrite Hu.
  - exists u. tauto.
  - exists u. split; [now apply find_by_id_app_l | tauto].
  - pose proof (account_step_id _ _ _ Hstep) as Hi.
    destruct (N.eq_dec (User._id v) i) as [Heq|Hne].
    + assert (v = u).
      { apply find_by_id_found in Hf. destruct Hf as [Huin Hui].
        apply (NoDup_map_inj User._id (World.users w)); congruence. }
      subst v. exists v'. split; [|tauto].
      now apply find_by_id_replace with (u := u).
    + exists u. split; [|tauto].
      rewrite find_by_id_replace_other; trivial. congruence.
Qed.

(** No two accounts of a world reached from the empty store share an email
    or an identifier: sign-up refuses an email that is taken, and no handler
    rewrites an email. *)
Theorem reachable_accounts_distinct calls :
  NoDup (map User.email (World.users (final calls World.empty)))
  /\ NoDup (map User._id (World.users (final calls World.empty))).
Proof.
  destruct (final_consistent calls World.empty empty_consistent)
    as (Hid & Hem & _).
  now split.
Qed.

(** In every world reached from the empty store the failure counter of an
    account lies between 0 and 5, the account is locked exactly when the
    counter is 5, and a positive counter belongs to a verified account. *)
Theorem reachable_counter_in_range calls u :
  In u (World.users (final calls World.empty)) ->
  0 <= User.loginAttempts u <= 5
  /\ (User.isLocked u = true <-> User.loginAttempts u = 5)
  /\ (0 < User.loginAttempts u -> User.isVerified u = true).
Proof.
  intros Hin.
  pose proof (final_range calls World.empty (Forall_nil _)) as Hall.
  rewrite Forall_forall in Hall. exact (Hall u Hin).
Qed.

(** In a consistent store no call deletes, renames or re-addresses an
    account, and none takes a verification back: the account stored under an
    identifier stays stored under it with the same name and email, and stays
    verified if it was. *)
Theorem accounts_persist ep amb req w i u :
  store_consistent w ->
  find_by_id i (World.users w) = Some u ->
  exists u',
    find_by_id i (World.users (snd (dispatch ep amb req w))) = Some u'
    /\ identity u' = identity u
    /\ (User.isVerified u = true -> User.isVerified u' = true).
Proof.
  intros Hw Hf.
  destruct (dispatch_account ep amb req w i u Hw Hf) as (u' & Hf' & Hc).
  exists u'. split; trivial.
  destruct Hc as [->|Hstep]; [tauto|].
  split; [now apply (account_step_identity ep)|].
  destruct Hstep; cbn; trivial.
Qed.

(** In a consistent store only reset-password changes a stored password
    hash or opens a lock: after a call to any other endpoint the hash is
    the same, and a locked account is still locked with the same counter. *)
Theorem only_reset_unlocks ep amb req w i u :
  store_consistent w ->
  ep <> ResetPassword ->
  find_by_id i (World.users w) = Some u ->
  exists u',
    find_by_id i (World.users (snd (dispatch ep amb req w))) = Some u'
    /\ User.password u' = User.password u
    /\ (User.isLocked u = true ->
        User.isLocked u' = true
        /\ User.loginAttempts u' = User.loginAttempts u).
Proof.
  intros Hw Hep Hf.
  destruct (dispatch_account ep amb req w i u Hw Hf) as (u' & Hf' & Hc).
  exists u'. split; trivial.
  destruct Hc as [->|Hstep]; [tauto|].
  destruct Hstep; cbn; try congruence; split; trivial;
    intros Hlocked; try congruence; now split.
Qed.

(** A call changes at most one account: there is an identifier such that
    the lookup of every other identifier gives what it gave before. *)
Theorem one_account_per_call ep amb req w :
  exists i, forall j,
    j <> i ->
    find_by_id j (World.users (snd (dispatch ep amb req w)))
    = find_by_id j (World.users w).
Proof.
  destruct (dispatch_cases ep amb req w)
    as [[Hu _] | [(_ & _ & hashed & Hu & _)
                 | (v & v' & Hin & Hstep & Hu & _)]];
    rewrite Hu.
  - exists 0%N. trivial.
  - exists (World.next_id w). intros j Hj.
    apply find_by_id_app_other. cbn. congruence.
  - exists (User._id v'). intros j Hj.
    apply find_by_id_replace_other. congruence.
Qed.

End StoreInvariants.

Lemma reachable_counter_in_range_witness :
  0 <= User.loginAttempts alice_locked <= 5
  /\ (User.isLocked alice_locked = true <-> User.loginAttempts alice_locked = 5)
  /\ (0 < User.loginAttempts alice_locked ->
      User.isVerified alice_locked = true).
Proof.
  apply (reachable_counter_in_range (L := plain_libs) alice_story
           alice_locked).
  vm_compute. left. reflexivity.
Defined.

Lemma accounts_persist_witness :
  exists u',
    find_by_id 0
      (World.users
         (snd (dispatch (L := plain_libs) SignIn quiet (alice_login "x1")
                        alice_world))) = Some u'
    /\ identity u' = identity alice
    /\ (User.isVerified alice = true -> User.isVerified u' = true).
Proof.
  apply (accounts_persist (L := plain_libs) SignIn quiet (alice_login "x1")
           alice_world 0%N alice).
  - concrete_store.
  - reflexivity.
Defined.

Lemma only_reset_unlocks_witness :
  exists u',
    find_by_id 0
      (World.users
         (snd (dispatch (L := plain_libs) SignIn quiet (alice_login "p1")
                        (World.mk [alice_locked] [] [] 1)))) = Some u'
    /\ User.password u' = User.password alice_locked
    /\ (User.isLocked alice_locked = true ->
        User.isLocked u' = true
        /\ User.loginAttempts u' = User.loginAttempts alice_locked).
Proof.
  apply (only_reset_unlocks (L := plain_libs) SignIn quiet (alice_login "p1")
           (World.mk [alice_locked] [] [] 1) 0%N alice_locked).
  - concrete_store.
  - discriminate.
  - reflexivity.
Defined.

(** ** Sign-in: refusals, the log, and failures followed by a success *)

Section SignInEdges.
Context `{L : Libs}.

(** A sign-in with the matching password on a verified, unlocked account. *)
Lemma signIn_match amb req w e u p :
  find_by_email e (World.users w) = Some u ->
  User.isVerified u = true -> User.isLocked u = false ->
  login_with e p req ->
  bcrypt_compare p (User.password u) = true ->
  signIn amb req w =
    if 0 <? User.loginAttempts u then
      (Responded (json 200 true "User signed in successfully"
                    (SessionData
                       (jwt_sign (User._id u) JWT_SECRET JWT_EXPIRES_IN
                                 (Ambient.now amb))
                       (User.set_loginAttempts 0 u))),
       World.mk (replace_doc (User.set_loginAttempts 0 u) (World.users w))
                (World.logs w ++ [success_entry e u])
                (World.outbox w) (World.next_id w))
    else
      (Responded (json 200 true "User signed in successfully"
                    (SessionData
                       (jwt_sign (User._id u) JWT_SECRET JWT_EXPIRES_IN
                                 (Ambient.now amb))
                       u)),
       World.mk (World.users w) (World.logs w ++ [success_entry e u])
                (World.outbox w) (World.next_id w)).
Proof.
  intros Hf Hv Hl [He Hp] Hc.
  unfold signIn. run_handler.
  rewrite He, Hf. cbn. rewrite Hv, Hl. cbn.
  rewrite Hp. cbn. rewrite Hc. cbn.
  destruct (0 <? User.loginAttempts u); reflexivity.
Qed.

Lemma signIn_refused_cases amb req w :
  match find_by_email (Body.email (Req.body req)) (World.users w) with
  | None =>
      signIn amb req w = (Forwarded (new_Error "User not found" 404), w)
  | Some u =>
      (User.isVerified u = false -> signIn amb req w = (verify_first, w))
      /\ (User.isVerified u = true -> User.isLocked u = true ->
          signIn amb req w =
            (Forwarded
               (new_Error "Account is locked. Please contact administrator"
                          403), w))
  end.
Proof.
  unfold signIn. run_handler.
  destruct (find_by_email (Body.email (Req.body req)) (World.users w))
    as [u|]; cbn; [|reflexivity].
  split.
  - intros Hv. now rewrite Hv.
  - intros Hv Hl. now rewrite Hv, Hl.
Qed.

(** Sign-in stops before it looks at the password when no account has the
    email (404), when the account is unverified (403) and when it is locked
    (403): whatever password the request carries, matching or not or
    missing, the counter, the lock and the login log are left as they
    were. *)
Theorem signIn_refused_before_password amb req w :
  match find_by_email (Body.email (Req.body req)) (World.users w) with
  | None =>
      signIn amb req w = (Forwarded (new_Error "User not found" 404), w)
  | Some u =>
      (User.isVerified u = false ->
       signIn amb req w =
         (Forwarded
            (new_Error "Please verify your email before signing in" 403), w))
      /\ (User.isVerified u = true -> User.isLocked u = true ->
          signIn amb req w =
            (Forwarded
               (new_Error "Account is locked. Please contact administrator"
                          403), w))
  end.
Proof. exact (signIn_refused_cases amb req w). Qed.

(** A sign-in without a password on a verified, unlocked account is not
    counted as a failure: bcrypt's error is handed to [next] without a
    status code, and the counter and the login log are left as they were. *)
Theorem signIn_missing_password_not_counted amb req w u :
  find_by_email (Body.email (Req.body req)) (World.users w) = Some u ->
  User.isVerified u = true ->
  User.isLocked u = false ->
  Body.password (Req.body req) = None ->
  signIn amb req w = (Forwarded illegal_arguments, w)
  /\ JsError.statusCode illegal_arguments = None.
Proof.
  intros Hf Hv Hl Hp. split; [|reflexivity].
  unfold signIn. run_handler. rewrite Hf. cbn. rewrite Hv, Hl. cbn.
  now rewrite Hp.
Qed.

(** The login log has an entry for a sign-in exactly when the password was
    compared and the account was not locked by it: a 200 appends one
    success entry, a 401 appends one failed entry with reason "Invalid
    password", and every other outcome (404, the three 403s, a thrown
    error) appends nothing. The entry carries the email of the request. *)
Theorem signIn_log_follows_outcome amb req w :
  let logged (status : string) (reason : option string) :=
    exists entry,
      World.logs (snd (signIn amb req w)) = (World.logs w ++ [entry])%list
      /\ LoginLog.status entry = status
      /\ LoginLog.reason entry = reason
      /\ LoginLog.email entry = Body.email (Req.body req) in
  match fst (signIn amb req w) with
  | Responded r => Response.status r = 200 /\ logged "success" None
  | Forwarded e =>
      match JsError.statusCode e with
      | Some 401 => logged "failed" (Some "Invalid password")
      | _ => World.logs (snd (signIn amb req w)) = World.logs w
      end
  end.
Proof.
  unfold signIn. run_handler. split_cases.
  all: try reflexivity.
  all: try (split; [reflexivity|]).
  all: eexists; repeat split.
Qed.

(** On a verified, unlocked account whose counter is not positive, a
    sign-in with the matching password saves nothing: the accounts are as
    they were, the log gains one success entry, and the 200 carries the
    token and the account as stored. *)
Theorem signIn_clean_success_saves_nothing amb req w e u p :
  find_by_email e (World.users w) = Some u ->
  User.isVerified u = true ->
  User.isLocked u = false ->
  User.loginAttempts u <= 0 ->
  login_with e p req ->
  bcrypt_compare p (User.password u) = true ->
  signIn amb req w =
    (Responded (json 200 true "User signed in successfully"
                  (SessionData
                     (jwt_sign (User._id u) JWT_SECRET JWT_EXPIRES_IN
                               (Ambient.now amb))
                     u)),
     World.mk (World.users w) (World.logs w ++ [success_entry e u])
              (World.outbox w) (World.next_id w)).
Proof.
  intros Hf Hv Hl Hle Hreq Hc.
  rewrite (signIn_match amb req w e u p); trivial.
  apply Z.ltb_ge in Hle. now rewrite Hle.
Qed.

End SignInEdges.

Lemma signIn_refused_before_password_witness :
  signIn (L := plain_libs) quiet (alice_login "p1")
         (World.mk [alice_locked] [] [] 1)
  = (Forwarded
       (new_Error "Account is locked. Please contact administrator" 403),
     World.mk [alice_locked] [] [] 1).
Proof.
  exact (proj2 (signIn_refused_before_password (L := plain_libs) quiet
                  (alice_login "p1") (World.mk [alice_locked] [] [] 1))
               eq_refl eq_refl).
Defined.

Lemma signIn_missing_password_not_counted_witness :
  signIn (L := plain_libs) quiet
         (request None (Some "a@x.com") None None "") alice_world
  = (Forwarded illegal_arguments, alice_world).
Proof.
  refine (proj1 (signIn_missing_password_not_counted (L := plain_libs) quiet
                   (request None (Some "a@x.com") None None "") alice_world
                   alice _ _ _ _)); reflexivity.
Defined.

Lemma signIn_clean_success_saves_nothing_witness :
  signIn (L := plain_libs) quiet (alice_login "p1") alice_world
  = (Responded (json 200 true "User signed in successfully"
                  (SessionData "0" alice)),
     World.mk [alice] [success_entry (Some "a@x.com") alice] [] 1).
Proof.
  refine (signIn_clean_success_saves_nothing (L := plain_libs) quiet
            (alice_login "p1") alice_world (Some "a@x.com") alice "p1"
            _ _ _ _ _ _); try reflexivity.
  all: first [discriminate | split; reflexivity].
Defined.

Section FailuresThenSuccess.
Context `{L : Libs}.

Lemma final_app calls1 calls2 : forall w,
  final (calls1 ++ calls2) w = final calls2 (final calls1 w).
Proof.
  induction calls1 as [|[[ep amb] req] rest IH]; intros w; cbn; trivial.
Qed.

Lemma replace_doc_self u us :
  NoDup (map User._id us) -> In u us -> replace_doc u us = us.
Proof.
  intros Hnd Hin. unfold replace_doc.
  rewrite <- (map_id us) at 2. apply map_ext_in. intros d Hd.
  destruct (N.eqb_spec (User._id d) (User._id u)) as [Heq|]; trivial.
  symmetry. now apply (NoDup_map_inj User._id us).
Qed.

(** Wrong passwords below the threshold only move the counter and the log. *)
Lemma final_failures w e u calls : forall k,
  find_by_email e (World.users w) = Some u ->
  User.isVerified u = true -> User.isLocked u = false ->
  User.loginAttempts u = 0 ->
  Forall (fun c => wrong_password e u (snd c)) calls ->
  (k + List.length calls <= 4)%nat ->
  final (sign_in_calls calls) (after_failures w e u k)
  = after_failures w e u (k + List.length calls).
Proof.
  induction calls as [|c rest IH]; intros k Hf Hv Hl H0 Hall Hk.
  - cbn. now rewrite Nat.add_0_r.
  - inversion Hall; subst. cbn [sign_in_calls map final dispatch fst snd].
    rewrite (signIn_wrong_after (fst c) (snd c) w e u k); trivial.
    cbn [List.length] in Hk.
    destruct (Nat.leb_spec 4 k); [lia|]. cbn [snd].
    change (map (fun c0 => (SignIn, fst c0, snd c0)) rest)
      with (sign_in_calls rest).
    rewrite (IH (S k)); trivial; [|lia].
    f_equal. cbn [List.length]. lia.
Qed.

(** On a verified, unlocked account with counter 0 in a consistent store,
    up to four sign-ins with wrong passwords followed by one with the
    matching password leave the accounts exactly as they were before the
    first call: the counter is back at 0 and nothing is locked. The log has
    gained one failed entry per wrong password and one success entry. *)
Theorem failures_then_success_restore_account w e u wrongs right p :
  store_consistent w ->
  find_by_email e (World.users w) = Some u ->
  User.isVerified u = true ->
  User.isLocked u = false ->
  User.loginAttempts u = 0 ->
  Forall (fun c => wrong_password e u (snd c)) wrongs ->
  (List.length wrongs <= 4)%nat ->
  login_with e p (snd right) ->
  bcrypt_compare p (User.password u) = true ->
  final (sign_in_calls (wrongs ++ [right])) w =
    World.mk (World.users w)
             (World.logs w
              ++ repeat (failed_entry e u) (List.length wrongs)
              ++ [success_entry e u])
             (World.outbox w) (World.next_id w).
Proof.
  intros (Hid & _ & _) Hf Hv Hl H0 Hall Hlen Hreq Hc.
  assert (Hin : In u (World.users w)) by (now apply find_by_email_found in Hf).
  unfold sign_in_calls. rewrite map_app, final_app. cbn [map final fst snd].
  destruct wrongs as [|c rest].
  - cbn [map final dispatch List.length repeat app].
    rewrite (signIn_match (fst right) (snd right) w e u p); trivial.
    rewrite H0. reflexivity.
  - inversion Hall; subst. cbn [map final dispatch fst snd].
    rewrite (signIn_wrong (fst c) (snd c) w e u); trivial.
    rewrite H0.
    change (5 <=? 0 + 1) with false. cbv iota.
    change (World.mk
              (replace_doc (User.set_loginAttempts (0 + 1) u) (World.users w))
              (World.logs w ++ [failed_entry e u])
              (World.outbox w) (World.next_id w))
      with (after_failures w e u 1).
    cbn [snd].
    change (map (fun c0 => (SignIn, fst c0, snd c0)) rest)
      with (sign_in_calls rest).
    cbn [List.length] in Hlen.
    rewrite (final_failures w e u rest 1); trivial; try lia.
    cbn [dispatch].
    rewrite (signIn_match (fst right) (snd right)
               (after_failures w e u (1 + List.length rest)) e
               (User.set_loginAttempts (Z.of_nat (1 + List.length rest)) u) p);
      trivial.
    + cbn [User.loginAttempts User.set_loginAttempts].
      destruct (Z.ltb_spec 0 (Z.of_nat (1 + List.length rest))); [|lia].
      cbn [snd after_failures World.users World.logs World.outbox
             World.next_id].
      rewrite replace_doc_twice by reflexivity.
      replace (User.set_loginAttempts 0
                 (User.set_loginAttempts (Z.of_nat (1 + List.length rest)) u))
        with u by (destruct u; cbn in *; now subst).
      rewrite replace_doc_self by trivial.
      f_equal. now rewrite <- app_assoc.
    + now apply after_failures_found.
Qed.

End FailuresThenSuccess.

Lemma failures_then_success_restore_account_witness :
  final (L := plain_libs)
        (sign_in_calls
           ([(quiet, alice_login "x1"); (quiet, alice_login "x2")]
            ++ [(quiet, alice_login "p1")]))
        alice_world
  = World.mk [alice]
             [failed_entry (Some "a@x.com") alice;
              failed_entry (Some "a@x.com") alice;
              success_entry (Some "a@x.com") alice]
             [] 1.
Proof.
  refine (failures_then_success_restore_account (L := plain_libs)
            alice_world (Some "a@x.com") alice
            [(quiet, alice_login "x1"); (quiet, alice_login "x2")]
            (quiet, alice_login "p1") "p1" _ _ _ _ _ _ _ _ _);
    try reflexivity.
  - concrete_store.
  - repeat constructor; eexists; split; reflexivity.
  - cbn. lia.
  - split; reflexivity.
Defined.

(** ** Sign-up and forgot-password: the success paths and the side effects *)

Section Notifications.
Context `{L : Libs}.

Lemma signUp_run amb req w p :
  Body.password (Req.body req) = Some p ->
  Body.confirmPassword (Req.body req) = Some p ->
  p <> "" ->
  find_by_email (Body.email (Req.body req)) (World.users w) = None ->
  Ambient.mailFailure amb = None ->
  signUp amb req w =
    (Responded
       (json 201 true "User created successfully"
          (VerificationData
             (jwt_sign (World.next_id w) JWT_SECRET JWT_EXPIRES_IN
                       (Ambient.now amb))
             (User.mk (World.next_id w) (Body.name (Req.body req))
                      (Body.email (Req.body req))
                      (bcrypt_hash p (Ambient.salt amb)) false false 0))),
     World.mk
       (World.users w
        ++ [User.mk (World.next_id w) (Body.name (Req.body req))
                    (Body.email (Req.body req))
                    (bcrypt_hash p (Ambient.salt amb)) false false 0])
       (World.logs w)
       (World.outbox w
        ++ [verification_mail (Body.name (Req.body req))
              (Body.email (Req.body req))
              ("http://yourfrontend.com/verify-email/"
               ++ jwt_sign (World.next_id w) JWT_SECRET JWT_EXPIRES_IN
                           (Ambient.now amb))])
       (N.succ (World.next_id w))).
Proof.
  intros Hp Hc Hne Hf Hm.
  unfold signUp. run_handler.
  apply String.eqb_neq in Hne.
  rewrite Hc, Hp, Hf. cbn. rewrite Hne, String.eqb_refl. cbn.
  rewrite Hm. reflexivity.
Qed.

(** A sign-up with matching non-empty passwords under an email no account
    has, with the mail transport working, appends one account (unverified,
    unlocked, counter 0, the hash of the password), sends one verification
    mail to the email with a link that ends in the token signed for the new
    identifier, and answers 201 with that token and the account. *)
Theorem signUp_creates_unverified_account amb req w p :
  Body.password (Req.body req) = Some p ->
  Body.confirmPassword (Req.body req) = Some p ->
  p <> "" ->
  find_by_email (Body.email (Req.body req)) (World.users w) = None ->
  Ambient.mailFailure amb = None ->
  let newUser :=
    User.mk (World.next_id w) (Body.name (Req.body req))
            (Body.email (Req.body req))
            (bcrypt_hash p (Ambient.salt amb)) false false 0 in
  let token :=
    jwt_sign (World.next_id w) JWT_SECRET JWT_EXPIRES_IN (Ambient.now amb) in
  signUp amb req w =
    (Responded (json 201 true "User created successfully"
                  (VerificationData token newUser)),
     World.mk (World.users w ++ [newUser]) (World.logs w)
              (World.outbox w
               ++ [verification_mail (Body.name (Req.body req))
                     (Body.email (Req.body req))
                     ("http://yourfrontend.com/verify-email/" ++ token)])
              (N.succ (World.next_id w))).
Proof. intros Hp Hc Hne Hf Hm newUser token. now apply signUp_run. Qed.

(** Sign-up never adds a second account under an email that is taken:
    whatever the rest of the request, the world is left as it was; the
    answer is the 409 error, or the direct 400 when [confirmPassword] is
    missing or empty. *)
Theorem signUp_taken_email_changes_nothing amb req w u :
  find_by_email (Body.email (Req.body req)) (World.users w) = Some u ->
  signUp amb req w =
    (if truthy (Body.confirmPassword (Req.body req)) then
       Forwarded (new_Error "User already exists" 409)
     else
       Responded (json 400 false "Confirm password is empty" NoData),
     w).
Proof.
  intros Hf. unfold signUp. run_handler. rewrite Hf.
  now destruct (truthy (Body.confirmPassword (Req.body req))).
Qed.

Lemma forgotPassword_run amb req w u :
  truthy (Body.email (Req.body req)) = true ->
  find_by_email (Body.email (Req.body req)) (World.users w) = Some u ->
  Ambient.mailFailure amb = None ->
  forgotPassword amb req w =
    (Responded
       (json 200 true "Password reset link sent to email"
          (ResetData
             (jwt_sign (User._id u) JWT_SECRET "1h" (Ambient.now amb))
             ("http://yourfrontend.com/reset-password/"
              ++ jwt_sign (User._id u) JWT_SECRET "1h" (Ambient.now amb)))),
     World.mk (World.users w) (World.logs w)
              (World.outbox w
               ++ [reset_mail (User.name u) (User.email u)
                     ("http://yourfrontend.com/reset-password/"
                      ++ jwt_sign (User._id u) JWT_SECRET "1h"
                                  (Ambient.now amb))])
              (World.next_id w)).
Proof.
  intros He Hf Hm.
  unfold forgotPassword. run_handler. rewrite He. cbn. rewrite Hf. cbn.
  now rewrite Hm.
Qed.

(** Forgot-password for the email of a stored account, with the mail
    transport working, sends one mail to the account's address with the
    reset link and answers 200 with the token, signed for the account's
    identifier with the one-hour expiry, and the link. Accounts and log are
    untouched, and the account may be locked or unverified. *)
Theorem forgotPassword_mails_reset_link amb req w u :
  truthy (Body.email (Req.body req)) = true ->
  find_by_email (Body.email (Req.body req)) (World.users w) = Some u ->
  Ambient.mailFailure amb = None ->
  let token := jwt_sign (User._id u) JWT_SECRET "1h" (Ambient.now amb) in
  let url := "http://yourfrontend.com/reset-password/" ++ token in
  forgotPassword amb req w =
    (Responded (json 200 true "Password reset link sent to email"
                  (ResetData token url)),
     World.mk (World.users w) (World.logs w)
              (World.outbox w ++ [reset_mail (User.name u) (User.email u) url])
              (World.next_id w)).
Proof.
  intros He Hf Hm token url. now apply forgotPassword_run.
Qed.

(** Side effects by endpoint. Only sign-in writes the login log. Sign-out
    and forgot-password never touch an account. A call sends at most one
    mail, only sign-up and forgot-password send any, and a mail is in the
    outbox exactly when the call answered with a success response. *)
Theorem side_effects_by_endpoint ep amb req w :
  (ep <> SignIn ->
   World.logs (snd (dispatch ep amb req w)) = World.logs w)
  /\ (ep = SignOut \/ ep = ForgotPassword ->
      World.users (snd (dispatch ep amb req w)) = World.users w)
  /\ (World.outbox (snd (dispatch ep amb req w)) = World.outbox w
      \/ exists m r,
           World.outbox (snd (dispatch ep amb req w))
           = (World.outbox w ++ [m])%list
           /\ (ep = SignUp \/ ep = ForgotPassword)
           /\ Ambient.mailFailure amb = None
           /\ fst (dispatch ep amb req w) = Responded r
           /\ Response.success r = true)
  /\ ((ep = SignUp \/ ep = ForgotPassword) ->
      forall r, fst (dispatch ep amb req w) = Responded r ->
                Response.success r = true ->
                World.outbox (snd (dispatch ep amb req w)) <> World.outbox w).
Proof.
  assert (Hgrow : forall (l : list Mail.t) m, (l ++ [m])%list <> l).
  { intros l m E. apply (f_equal (@List.length _)) in E.
    rewrite length_app in E. cbn in E. lia. }
  destruct ep; cbn [dispatch];
    unfold signUp, signIn, signOut, forgotPassword, resetPassword,
      verifyEmail;
    run_handler; split_cases.
  all: repeat split; try congruence; try (intros [?|?]; congruence).
  all: try (left; reflexivity).
  all: try (right; eexists _, _; repeat split; eauto; fail).
  all: try (intros [?|?] r0 Hr Hs; try discriminate;
            first [ apply Hgrow
                  | inversion Hr; subst; discriminate ]).
Qed.

End Notifications.

Lemma signUp_creates_unverified_account_witness :
  signUp (L := plain_libs) quiet bob_signup alice_world
  = (Responded (json 201 true "User created successfully"
                  (VerificationData "1" bob)),
     World.mk [alice; bob] []
              [verification_mail (Some "Bob")
                 (Some "b@x.com") "http://yourfrontend.com/verify-email/1"]
              2).
Proof.
  refine (signUp_creates_unverified_account (L := plain_libs) quiet
            bob_signup alice_world "p" _ _ _ _ _);
    first [reflexivity | discriminate].
Defined.

Lemma signUp_taken_email_changes_nothing_witness :
  signUp (L := plain_libs) quiet
         (request (Some "Eve") (Some "a@x.com") (Some "p") (Some "p") "")
         alice_world
  = (Forwarded (new_Error "User already exists" 409), alice_world).
Proof.
  refine (signUp_taken_email_changes_nothing (L := plain_libs) quiet
            (request (Some "Eve") (Some "a@x.com") (Some "p") (Some "p") "")
            alice_world alice _).
  reflexivity.
Defined.

Lemma forgotPassword_mails_reset_link_witness :
  forgotPassword (L := plain_libs) quiet
                 (request None (Some "a@x.com") None None "")
                 (World.mk [alice_locked] [] [] 1)
  = (Responded (json 200 true "Password reset link sent to email"
                  (ResetData "0" "http://yourfrontend.com/reset-password/0")),
     World.mk [alice_locked] []
              [reset_mail (Some "Alice") (Some "a@x.com")
                 "http://yourfrontend.com/reset-password/0"]
              1).
Proof.
  refine (forgotPassword_mails_reset_link (L := plain_libs) quiet
            (request None (Some "a@x.com") None None "")
            (World.mk [alice_locked] [] [] 1) alice_locked _ _ _);
    reflexivity.
Defined.

Lemma side_effects_by_endpoint_witness :
  World.logs (snd (dispatch (L := plain_libs) SignUp quiet bob_signup
                            alice_world))
  = World.logs alice_world.
Proof.
  apply (proj1 (side_effects_by_endpoint (L := plain_libs) SignUp quiet
                  bob_signup alice_world)).
  discriminate.
Defined.

(** ** Tokens: reset, verification and how the flows compose *)

Section Flows.
Context `{L : Libs}.

Lemma resetPassword_run amb req w uid u p :
  token_valid (Req.token req) (Ambient.now amb) uid ->
  Body.password (Req.body req) = Some p ->
  p <> "" ->
  find_by_id uid (World.users w) = Some u ->
  resetPassword amb req w =
    (reset_ok,
     World.set_users
       (replace_doc (reset_account (bcrypt_hash p (Ambient.salt amb)) u)
                    (World.users w)) w).
Proof.
  intros [Ht Hj] Hp Hne Hf.
  unfold resetPassword. run_handler.
  apply String.eqb_neq in Ht, Hne.
  rewrite Ht, Hp. cbn. rewrite Hne. cbn.
  rewrite Hj. cbn. rewrite Hf. reflexivity.
Qed.

Lemma verifyEmail_run amb req w uid u :
  jwt_verify (Req.token req) JWT_SECRET (Ambient.now amb) = inr uid ->
  find_by_id uid (World.users w) = Some u ->
  User.isVerified u = false ->
  verifyEmail amb req w =
    (verified_ok,
     World.set_users
       (replace_doc (User.set_isVerified true u) (World.users w)) w).
Proof.
  intros Hj Hf Hv. unfold verifyEmail. run_handler.
  rewrite Hj. cbn. rewrite Hf. cbn. now rewrite Hv.
Qed.

Lemma find_by_id_last i us v :
  find_by_id i us = None -> User._id v = i ->
  find_by_id i (us ++ [v]) = Some v.
Proof.
  intros Hn Hi. unfold find_by_id in *.
  induction us as [|d us IH]; cbn in *.
  - apply N.eqb_eq in Hi. now rewrite Hi.
  - destruct (User._id d =? i)%N; [discriminate|]. now apply IH.
Qed.

(** Forgot-password, reset-password, verify-email and sign-out are all or
    nothing: unless the call answers with a success response, the world is
    exactly as it was. (Sign-in and sign-up are not: a counted failure and
    a failed mail both leave their mark.) *)
Theorem refusals_leave_world_untouched ep amb req w :
  ep <> SignUp ->
  ep <> SignIn ->
  match fst (dispatch ep amb req w) with
  | Responded r =>
      Response.success r = true \/ snd (dispatch ep amb req w) = w
  | Forwarded _ => snd (dispatch ep amb req w) = w
  end.
Proof.
  intros Hup Hin.
  destruct ep; try congruence; cbn [dispatch];
    unfold signOut, forgotPassword, resetPassword, verifyEmail;
    run_handler; split_cases; try reflexivity; try (left; reflexivity);
    try (right; reflexivity).
  all: now destruct w.
Qed.

(** A reset token is not used up: while it verifies, a second
    reset-password call with it succeeds like the first, and the account is
    stored as if only the second reset had happened. *)
Theorem reset_token_replays amb1 amb2 req1 req2 w uid u p1 p2 :
  token_valid (Req.token req1) (Ambient.now amb1) uid ->
  Req.token req2 = Req.token req1 ->
  token_valid (Req.token req1) (Ambient.now amb2) uid ->
  Body.password (Req.body req1) = Some p1 -> p1 <> "" ->
  Body.password (Req.body req2) = Some p2 -> p2 <> "" ->
  find_by_id uid (World.users w) = Some u ->
  serve [(ResetPassword, amb1, req1); (ResetPassword, amb2, req2)] w =
    [(reset_ok,
      World.set_users
        (replace_doc (reset_account (bcrypt_hash p1 (Ambient.salt amb1)) u)
                     (World.users w)) w);
     (reset_ok,
      World.set_users
        (replace_doc (reset_account (bcrypt_hash p2 (Ambient.salt amb2)) u)
                     (World.users w)) w)].
Proof.
  intros Ht1 Heq Ht2 Hp1 Hn1 Hp2 Hn2 Hf.
  cbn [serve dispatch].
  rewrite (resetPassword_run amb1 req1 w uid u p1); trivial. cbn [snd].
  rewrite (resetPassword_run amb2 req2 _ uid
             (reset_account (bcrypt_hash p1 (Ambient.salt amb1)) u) p2);
    trivial.
  - cbn [World.users World.set_users].
    rewrite replace_doc_twice by reflexivity. reflexivity.
  - now rewrite Heq.
  - cbn. now apply find_by_id_replace with (u := u).
Qed.

(** The token forgot-password hands out opens reset-password: in a
    consistent store, while that token verifies, a reset-password call
    carrying it and a non-empty password stores the account found by the
    email with the new hash, counter 0 and no lock. *)
Theorem forgot_token_resets_password amb1 amb2 req1 req2 w u p :
  store_consistent w ->
  truthy (Body.email (Req.body req1)) = true ->
  find_by_email (Body.email (Req.body req1)) (World.users w) = Some u ->
  Ambient.mailFailure amb1 = None ->
  let token := jwt_sign (User._id u) JWT_SECRET "1h" (Ambient.now amb1) in
  let url := "http://yourfrontend.com/reset-password/" ++ token in
  Req.token req2 = token ->
  token_valid token (Ambient.now amb2) (User._id u) ->
  Body.password (Req.body req2) = Some p -> p <> "" ->
  serve [(ForgotPassword, amb1, req1); (ResetPassword, amb2, req2)] w =
    [(Responded (json 200 true "Password reset link sent to email"
                   (ResetData token url)),
      World.mk (World.users w) (World.logs w)
               (World.outbox w
                ++ [reset_mail (User.name u) (User.email u) url])
               (World.next_id w));
     (reset_ok,
      World.mk
        (replace_doc (reset_account (bcrypt_hash p (Ambient.salt amb2)) u)
                     (World.users w))
        (World.logs w)
        (World.outbox w ++ [reset_mail (User.name u) (User.email u) url])
        (World.next_id w))].
Proof.
  intros (Hid & _ & _) He Hf Hm token url Htok Hvalid Hp Hne.
  assert (Hin : In u (World.users w)) by (now apply find_by_email_found in Hf).
  cbn [serve dispatch].
  rewrite (forgotPassword_run amb1 req1 w u); trivial.
  cbn [snd]. fold token. fold url.
  rewrite (resetPassword_run amb2 req2 _ (User._id u) u p); trivial.
  - now rewrite Htok.
  - cbn. now apply find_by_id_In.
Qed.

End Flows.

Section Stories.
Context `{L : Libs}.

(** Tokens are not bound to a purpose: in a consistent store the session
    token a successful sign-in answers with, sent to reset-password while it
    verifies, resets the password of the account that signed in. *)
Theorem session_token_resets_password amb1 amb2 req1 req2 w e u p q :
  store_consistent w ->
  find_by_email e (World.users w) = Some u ->
  User.isVerified u = true ->
  User.isLocked u = false ->
  login_with e p req1 ->
  bcrypt_compare p (User.password u) = true ->
  let token :=
    jwt_sign (User._id u) JWT_SECRET JWT_EXPIRES_IN (Ambient.now amb1) in
  Req.token req2 = token ->
  token_valid token (Ambient.now amb2) (User._id u) ->
  Body.password (Req.body req2) = Some q -> q <> "" ->
  (exists u0, fst (signIn amb1 req1 w) = signed_in token u0)
  /\ fst (resetPassword amb2 req2 (snd (signIn amb1 req1 w))) = reset_ok
  /\ find_by_id (User._id u)
       (World.users
          (final [(SignIn, amb1, req1); (ResetPassword, amb2, req2)] w))
     = Some (reset_account (bcrypt_hash q (Ambient.salt amb2)) u).
Proof.
  intros (Hid & _ & _) Hf Hv Hl Hreq Hc token Htok Hvalid Hq Hne.
  assert (Hin : In u (World.users w)) by (now apply find_by_email_found in Hf).
  pose proof (find_by_id_In _ _ Hid Hin) as Hfid.
  cbn [final dispatch].
  rewrite (signIn_match amb1 req1 w e u p); trivial. fold token.
  destruct (0 <? User.loginAttempts u); cbn [fst snd].
  - split; [eexists; reflexivity|].
    rewrite (resetPassword_run amb2 req2 _ (User._id u)
               (User.set_loginAttempts 0 u) q); trivial.
    + split; [reflexivity|]. cbn [snd World.users World.set_users].
      rewrite replace_doc_twice by reflexivity.
      now apply find_by_id_replace with (u := u).
    + now rewrite Htok.
    + cbn. now apply find_by_id_replace with (u := u).
  - split; [eexists; reflexivity|].
    rewrite (resetPassword_run amb2 req2 _ (User._id u) u q); trivial.
    + split; [reflexivity|]. cbn [snd World.users World.set_users].
      now apply find_by_id_replace with (u := u).
    + now rewrite Htok.
Qed.

(** Reset-password does not verify an address: after a successful reset on
    an unverified account, a sign-in under its email is still refused with
    the 403 "Please verify your email before signing in", whatever the
    password. *)
Theorem reset_does_not_verify amb1 amb2 req1 req2 w uid e u p :
  token_valid (Req.token req1) (Ambient.now amb1) uid ->
  Body.password (Req.body req1) = Some p -> p <> "" ->
  find_by_id uid (World.users w) = Some u ->
  find_by_email e (World.users w) = Some u ->
  User.isVerified u = false ->
  Body.email (Req.body req2) = e ->
  let w1 :=
    World.set_users
      (replace_doc (reset_account (bcrypt_hash p (Ambient.salt amb1)) u)
                   (World.users w)) w in
  serve [(ResetPassword, amb1, req1); (SignIn, amb2, req2)] w =
    [(reset_ok, w1); (verify_first, w1)].
Proof.
  intros Hvalid Hp Hne Hfid Hfe Hv He w1.
  cbn [serve dispatch].
  rewrite (resetPassword_run amb1 req1 w uid u p); trivial. cbn [snd].
  fold w1. f_equal. f_equal.
  pose proof (signIn_refused_cases amb2 req2 w1) as Hcases.
  rewrite He in Hcases.
  assert (Hf1 : find_by_email e (World.users w1)
                = Some (reset_account (bcrypt_hash p (Ambient.salt amb1)) u)).
  { cbn. apply find_by_email_replace with (u := u); trivial.
    now apply find_by_email_found in Hfe. }
  rewrite Hf1 in Hcases. now apply (proj1 Hcases).
Qed.

(** Reset-password is the way out of a lockout: by bcrypt's round trip,
    after a successful reset on a locked, verified account, a sign-in with
    the new password answers 200 with the account unlocked at counter 0 and
    writes one success entry. *)
Theorem reset_recovers_locked_account amb1 amb2 req1 req2 w uid e u p :
  bcrypt_roundtrip ->
  token_valid (Req.token req1) (Ambient.now amb1) uid ->
  Body.password (Req.body req1) = Some p -> p <> "" ->
  find_by_id uid (World.users w) = Some u ->
  find_by_email e (World.users w) = Some u ->
  User.isVerified u = true ->
  User.isLocked u = true ->
  login_with e p req2 ->
  let u' := reset_account (bcrypt_hash p (Ambient.salt amb1)) u in
  let w1 := World.set_users (replace_doc u' (World.users w)) w in
  serve [(ResetPassword, amb1, req1); (SignIn, amb2, req2)] w =
    [(reset_ok, w1);
     (signed_in
        (jwt_sign (User._id u) JWT_SECRET JWT_EXPIRES_IN (Ambient.now amb2))
        u',
      World.mk (World.users w1) (World.logs w ++ [success_entry e u])
               (World.outbox w) (World.next_id w))].
Proof.
  intros Hb Hvalid Hp Hne Hfid Hfe Hv Hl Hreq u' w1.
  cbn [serve dispatch].
  rewrite (resetPassword_run amb1 req1 w uid u p); trivial. cbn [snd].
  fold u'. fold w1. f_equal. f_equal.
  rewrite (signIn_match amb2 req2 w1 e u' p); trivial.
  - cbn. apply find_by_email_replace with (u := u); trivial.
    now apply find_by_email_found in Hfe.
  - cbn. apply Hb.
Qed.

(** From sign-up to the first session. In a consistent store, after a
    successful sign-up a sign-in with the chosen password is refused (403)
    until verify-email has been called with the token the sign-up answered
    with; after that, by bcrypt's round trip, the same sign-in answers 200
    with the verified account. *)
Theorem signUp_verify_signIn amb1 amb2 amb3 amb4 req1 req2 req3 req4 w p :
  bcrypt_roundtrip ->
  store_consistent w ->
  Body.password (Req.body req1) = Some p ->
  Body.confirmPassword (Req.body req1) = Some p ->
  p <> "" ->
  find_by_email (Body.email (Req.body req1)) (World.users w) = None ->
  Ambient.mailFailure amb1 = None ->
  let e := Body.email (Req.body req1) in
  let newUser :=
    User.mk (World.next_id w) (Body.name (Req.body req1)) e
            (bcrypt_hash p (Ambient.salt amb1)) false false 0 in
  let token :=
    jwt_sign (World.next_id w) JWT_SECRET JWT_EXPIRES_IN (Ambient.now amb1) in
  login_with e p req2 ->
  Req.token req3 = token ->
  jwt_verify token JWT_SECRET (Ambient.now amb3) = inr (World.next_id w) ->
  login_with e p req4 ->
  map fst
      (serve [(SignUp, amb1, req1); (SignIn, amb2, req2);
              (VerifyEmail, amb3, req3); (SignIn, amb4, req4)] w)
  = [Responded (json 201 true "User created successfully"
                  (VerificationData token newUser));
     verify_first;
     verified_ok;
     signed_in
       (jwt_sign (World.next_id w) JWT_SECRET JWT_EXPIRES_IN
                 (Ambient.now amb4))
       (User.set_isVerified true newUser)].
Proof.
  intros Hb (Hid & Hem & Hlt) Hp Hc Hne Hf Hm e newUser token
         Hreq2 Htok Hj Hreq4.
  cbn [serve dispatch map].
  rewrite (signUp_run amb1 req1 w p); trivial. cbn [fst snd].
  fold e. fold newUser. fold token.
  set (w1 := World.mk _ _ _ _).
  assert (Hfe1 : find_by_email e (World.users w1) = Some newUser)
    by (cbn; now apply find_by_email_last).
  assert (Hfi1 : find_by_id (World.next_id w) (World.users w1) = Some newUser)
    by (cbn; apply find_by_id_last; [now apply find_by_id_fresh | reflexivity]).
  pose proof (signIn_refused_cases amb2 req2 w1) as Hcases.
  destruct Hreq2 as [He2 Hp2]. rewrite He2, Hfe1 in Hcases.
  rewrite (proj1 Hcases) by reflexivity. cbn [fst snd].
  rewrite (verifyEmail_run amb3 req3 w1 (World.next_id w) newUser);
    trivial; [|now rewrite Htok].
  cbn [fst snd].
  set (w3 := World.set_users _ w1).
  rewrite (signIn_match amb4 req4 w3 e (User.set_isVerified true newUser) p);
    trivial.
  - unfold w3. cbn [World.users World.set_users].
    apply find_by_email_replace with (u := newUser); trivial.
  - cbn. apply Hb.
Qed.

End Stories.

Ltac concrete_premise :=
  first [ reflexivity
        | discriminate
        | split; reflexivity
        | split; [discriminate | reflexivity]
        | intros ? ?; apply String.eqb_refl
        | concrete_store ].

Lemma refusals_leave_world_untouched_witness :
  snd (dispatch (L := plain_libs) ResetPassword quiet
                (request None None (Some "p") None "zz") alice_world)
  = alice_world.
Proof.
  exact (refusals_leave_world_untouched (L := plain_libs) ResetPassword quiet
           (request None None (Some "p") None "zz") alice_world
           ltac:(discriminate) ltac:(discriminate)).
Defined.

Lemma reset_token_replays_witness :
  serve (L := plain_libs)
        [(ResetPassword, quiet, alice_reset "n1");
         (ResetPassword, quiet, alice_reset "n2")] alice_world
  = [(reset_ok, World.mk [User.set_password "n1" alice] [] [] 1);
     (reset_ok, World.mk [User.set_password "n2" alice] [] [] 1)].
Proof.
  refine (reset_token_replays (L := plain_libs) quiet quiet
            (alice_reset "n1") (alice_reset "n2") alice_world 0%N alice
            "n1" "n2" _ _ _ _ _ _ _ _); concrete_premise.
Defined.

Lemma forgot_token_resets_password_witness :
  map fst
      (serve (L := plain_libs)
             [(ForgotPassword, quiet,
               request None (Some "a@x.com") None None "");
              (ResetPassword, quiet, alice_reset "n1")]
             (World.mk [alice_locked] [] [] 1))
  = [Responded (json 200 true "Password reset link sent to email"
                  (ResetData "0" "http://yourfrontend.com/reset-password/0"));
     reset_ok].
Proof.
  rewrite (forgot_token_resets_password (L := plain_libs) quiet quiet
             (request None (Some "a@x.com") None None "") (alice_reset "n1")
             (World.mk [alice_locked] [] [] 1) alice_locked "n1");
    concrete_premise.
Defined.

Lemma session_token_resets_password_witness :
  find_by_id 0
    (World.users
       (final (L := plain_libs)
              [(SignIn, quiet, alice_login "p1");
               (ResetPassword, quiet, alice_reset "n1")] alice_world))
  = Some (User.set_password "n1" alice).
Proof.
  refine (proj2 (proj2
            (session_token_resets_password (L := plain_libs) quiet quiet
               (alice_login "p1") (alice_reset "n1") alice_world
               (Some "a@x.com") alice "p1" "n1" _ _ _ _ _ _ _ _ _ _)));
    concrete_premise.
Defined.

Lemma reset_does_not_verify_witness :
  serve (L := plain_libs)
        [(ResetPassword, quiet, alice_reset "n1");
         (SignIn, quiet, alice_login "n1")] unverified_world
  = [(reset_ok, World.mk [User.set_password "n1" alice_unverified] [] [] 1);
     (verify_first,
      World.mk [User.set_password "n1" alice_unverified] [] [] 1)].
Proof.
  refine (reset_does_not_verify (L := plain_libs) quiet quiet
            (alice_reset "n1") (alice_login "n1") unverified_world 0%N
            (Some "a@x.com") alice_unverified "n1" _ _ _ _ _ _ _);
    concrete_premise.
Defined.

Lemma reset_recovers_locked_account_witness :
  map fst
      (serve (L := plain_libs)
             [(ResetPassword, quiet, alice_reset "n1");
              (SignIn, quiet, alice_login "n1")]
             (World.mk [alice_locked] [] [] 1))
  = [reset_ok; signed_in "0" (User.set_password "n1" alice)].
Proof.
  rewrite (reset_recovers_locked_account (L := plain_libs) quiet quiet
             (alice_reset "n1") (alice_login "n1")
             (World.mk [alice_locked] [] [] 1) 0%N (Some "a@x.com")
             alice_locked "n1");
    concrete_premise.
Defined.

Lemma signUp_verify_signIn_witness :
  map fst
      (serve (L := plain_libs)
             [(SignUp, quiet, bob_signup);
              (SignIn, quiet, request None (Some "b@x.com") (Some "p") None "");
              (VerifyEmail, quiet, token_request "1");
              (SignIn, quiet, request None (Some "b@x.com") (Some "p") None "")]
             alice_world)
  = [Responded (json 201 true "User created successfully"
                  (VerificationData "1" bob));
     verify_first; verified_ok; signed_in "1" bob_verified].
Proof.
  refine (signUp_verify_signIn (L := plain_libs) quiet quiet quiet quiet
            bob_signup
            (request None (Some "b@x.com") (Some "p") None "")
            (token_request "1")
            (request None (Some "b@x.com") (Some "p") None "")
            alice_world "p" _ _ _ _ _ _ _ _ _ _ _);
    concrete_premise.
Defined.
